(** * A shallow embedding of the semantic-layer SQL compiler

    Source: [semantic_layer.py].  The Python module turns a query (requested
    metrics, dimensions and filters) and a semantic-layer description
    (metrics, dimensions, joins) into the text of a SQL statement.

    Conventions of the embedding:
    - a Python [str] is a [string]; each [ascii] stands for one code point
      below 256;
    - a key that a JSON object may lack is an [option] field, read the way
      the source reads it ([.get(k, [])], [k in d], [x or []]);
    - an exception is a value of [exn], and a function that may raise
      returns a [result]; this includes the f-strings, since [str()] of an
      [int] raises beyond the interpreter's limit of 4300 digits;
    - the [set] of table names is a duplicate-free list in insertion order;
      which member [next(iter(s))] yields is left open by Python, and is
      fixed here by a number [seed] over which every theorem quantifies. *)

From Stdlib Require Import String Ascii List Bool Arith ZArith Lia Permutation.
From Stdlib Require Import Numbers.DecimalString.
Import ListNotations.

Open Scope list_scope.
Open Scope string_scope.

(** ** Exceptions and results *)

Inductive exn : Type :=
| ValueError (msg : string)
| TypeError (msg : string)
| KeyError (key : string)
| IndexError (msg : string)
| StopIteration.

Inductive result (A : Type) : Type :=
| Ok (a : A)
| Raise (e : exn).

Arguments Ok {A} a.
Arguments Raise {A} e.

Definition bind {A B : Type} (r : result A) (k : A -> result B) : result B :=
  match r with
  | Ok a => k a
  | Raise e => Raise e
  end.

Notation "'let*' x ':=' r 'in' k" := (bind r (fun x => k))
  (at level 10, x pattern, r at level 100, k at level 200).

(** ** The dataclasses *)

Record Metric : Type := mkMetric {
  m_name : string;
  m_sql : string;
  m_table : string
}.

Record Dimension : Type := mkDimension {
  d_name : string;
  d_sql : string;
  d_table : string
}.

Record Join : Type := mkJoin {
  j_one : string;
  j_many : string;
  j_join : string
}.

(** The [value] of a filter is typed [Any].  The source only asks whether it
    is a [str], whether it is an [int] or a [float] (a Python [bool] is an
    [int]), and for its [str()].  A float is carried by the text that
    [str()] gives for it. *)
Inductive value : Type :=
| VStr (s : string)
| VInt (n : Z)
| VFloat (repr : string)
| VBool (b : bool)
| VNone.

(** A filter dictionary with its three keys; the constructor call of
    line 134 accepts no other shape. *)
Record Filter : Type := mkFilter {
  f_field : string;
  f_operator : string;
  f_value : value
}.

Record SemanticLayer : Type := mkSemanticLayer {
  metrics : list Metric;
  dimensions : option (list Dimension);
  joins : option (list Join)
}.

(** The query dictionary: each of its three keys may be missing. *)
Record Query : Type := mkQuery {
  q_metrics : option (list string);
  q_dimensions : option (list string);
  q_filters : option (list Filter)
}.

(** ** Python primitives used by the module *)

(** The decimal text of an [int]: what [str(n)] returns when it returns
    (see [py_format] for when it does not). *)
Definition str_of_int (n : Z) : string :=
  NilZero.string_of_int (Z.to_int n).

(** The text of [str(v)], when [str(v)] returns. *)
Definition py_str (v : value) : string :=
  match v with
  | VStr s => s
  | VInt n => str_of_int n
  | VFloat r => r
  | VBool true => "True"
  | VBool false => "False"
  | VNone => "None"
  end.

(** [sys.get_int_max_str_digits()], which the module leaves at its
    default. *)
Definition int_max_str_digits : nat := 4300.

(** The number of decimal digits of an [int], the sign left out. *)
Definition int_digits (n : Z) : nat :=
  String.length (str_of_int (Z.abs n)).

(** The [ValueError] of the conversion of an [int] to text. *)
Definition digit_limit_error : exn :=
  ValueError "Exceeds the limit (4300 digits) for integer string conversion; use sys.set_int_max_str_digits() to increase the limit".

(** A replacement field [{v}] of an f-string: [str(v)], which raises for
    an [int] of more than [int_max_str_digits] digits. *)
Definition py_format (v : value) : result string :=
  match v with
  | VInt n =>
      if Nat.ltb int_max_str_digits (int_digits n)
      then Raise digit_limit_error
      else Ok (str_of_int n)
  | _ => Ok (py_str v)
  end.

(** [isinstance(v, str)]. *)
Definition is_str (v : value) : bool :=
  match v with
  | VStr _ => true
  | _ => false
  end.

(** [isinstance(v, (int, float))]. *)
Definition is_int_or_float (v : value) : bool :=
  match v with
  | VInt _ | VFloat _ | VBool _ => true
  | _ => false
  end.

(** [x in l] for a list of strings. *)
Definition str_in (x : string) (l : list string) : bool :=
  existsb (String.eqb x) l.

(** [l.append(x)]. *)
Definition append_item {A : Type} (l : list A) (x : A) : list A :=
  (l ++ [x])%list.

(** [sep.join(parts)]. *)
Definition join_with (sep : string) (parts : list string) : string :=
  String.concat sep parts.

(** [s.endswith(suffix)]. *)
Definition endswith (s suffix : string) : bool :=
  let n := String.length s in
  let k := String.length suffix in
  Nat.leb k n && String.eqb (substring (n - k) k s) suffix.

(** [s.replace(old, "")] for a non-empty [old]: every occurrence of [old],
    found from left to right without overlap, is removed.  [skip] counts
    the characters of a match still to be dropped. *)
Fixpoint remove_all_from (old : string) (skip : nat) (s : string) : string :=
  match s with
  | EmptyString => EmptyString
  | String c rest =>
      match skip with
      | S k => remove_all_from old k rest
      | O =>
          if prefix old s
          then remove_all_from old (String.length old - 1) rest
          else String c (remove_all_from old 0 rest)
      end
  end.

Definition remove_all (old s : string) : string :=
  remove_all_from old 0 s.

(** [c.isspace()] for a code point below 256. *)
Definition isspace (c : ascii) : bool :=
  let n := nat_of_ascii c in
  (Nat.leb 9 n && Nat.leb n 13) || (Nat.leb 28 n && Nat.leb n 32)
  || Nat.eqb n 133 || Nat.eqb n 160.

Fixpoint lstrip (s : string) : string :=
  match s with
  | EmptyString => EmptyString
  | String c rest => if isspace c then lstrip rest else s
  end.

Fixpoint rstrip (s : string) : string :=
  match s with
  | EmptyString => EmptyString
  | String c rest =>
      match rstrip rest with
      | EmptyString => if isspace c then EmptyString else String c EmptyString
      | r => String c r
      end
  end.

(** [s.strip()]. *)
Definition strip (s : string) : string := rstrip (lstrip s).

(** ** Sets of table names *)

Definition table_set : Type := list string.

(** [s.add(x)]. *)
Definition set_add (x : string) (s : table_set) : table_set :=
  if str_in x s then s else (s ++ [x])%list.

(** [a & b]. *)
Definition set_inter (a b : table_set) : table_set :=
  filter (fun t => str_in t b) a.

(** [next(iter(s))]: [StopIteration] on the empty set, otherwise one of the
    members; [seed] says which. *)
Definition next_iter (seed : nat) (s : table_set) : result string :=
  match nth_error s (seed mod List.length s) with
  | Some t => Ok t
  | None => Raise StopIteration
  end.

(** ** Lookups: [next((x for x in xs if x.name == n), None)] *)

Definition lookup_metric (n : string) (ms : list Metric) : option Metric :=
  find (fun m => String.eqb (m_name m) n) ms.

Definition lookup_dimension (n : string) (ds : list Dimension) : option Dimension :=
  find (fun d => String.eqb (d_name d) n) ds.

(** ** [get_qualified_field] *)

Definition get_qualified_field (field : string) (semantic_layer : SemanticLayer) : string :=
  let from_metrics :=
    match lookup_metric field (metrics semantic_layer) with
    | Some metric => m_table metric ++ "." ++ m_sql metric
    | None => field
    end in
  match dimensions semantic_layer with
  | Some (d0 :: ds) =>
      match lookup_dimension field (d0 :: ds) with
      | Some dimension => d_table dimension ++ "." ++ d_sql dimension
      | None => from_metrics
      end
  | _ => from_metrics
  end.

(** ** [generate_sql] *)

(** The newline of the f-strings. *)
Definition nl : string := String (ascii_of_nat 10) EmptyString.

(** [{j.one for j in joins} | {j.many for j in joins}]. *)
Definition set_of_list (l : list string) : table_set :=
  fold_left (fun s x => set_add x s) l [].

Definition set_union (a b : table_set) : table_set :=
  fold_left (fun s x => set_add x s) b a.

(** [query.get("metrics", [])]. *)
Definition requested_metrics (query : Query) : list string :=
  match q_metrics query with Some l => l | None => [] end.

(** Lines 83-88: the loop over the requested metrics.  [parts] and [tables]
    are the values of [metric_sql_parts] and [tables] so far. *)
Fixpoint build_metric_parts (ms : list Metric) (requested : list string)
    (parts : list string) (tables : table_set)
    : result (list string * table_set) :=
  match requested with
  | [] => Ok (parts, tables)
  | metric_name :: rest =>
      match lookup_metric metric_name ms with
      | None =>
          Raise (ValueError ("Metric " ++ metric_name ++ " not found in semantic layer"))
      | Some metric =>
          build_metric_parts ms rest
            (append_item parts
 (m_sql metric ++ " AS " ++ m_name metric))
            (set_add (m_table metric) tables)
      end
  end.

(** Iterating [semantic_layer.dimensions], which is [None] when the
    configuration has no ["dimensions"] key. *)
Definition iter_dimensions (semantic_layer : SemanticLayer) : result (list Dimension) :=
  match dimensions semantic_layer with
  | Some ds => Ok ds
  | None => Raise (TypeError "'NoneType' object is not iterable")
  end.

(** Lines 93-105: the loop over [query["dimensions"]]. *)
Fixpoint build_dimension_parts (semantic_layer : SemanticLayer)
    (names : list string) (parts : list string) (tables : table_set)
    : result (list string * table_set) :=
  match names with
  | [] => Ok (parts, tables)
  | dim_name :: rest =>
      if endswith dim_name "__week" then
        let base_dim := remove_all "__week" dim_name in
        match iter_dimensions semantic_layer with
        | Raise e => Raise e
        | Ok ds =>
            match lookup_dimension base_dim ds with
            | Some dimension =>
                build_dimension_parts semantic_layer rest
                  (append_item parts
 ("DATE_TRUNC(" ++ d_table dimension ++ "." ++ d_sql dimension
                             ++ ", WEEK) AS " ++ dim_name))
                  (set_add (d_table dimension) tables)
            | None => build_dimension_parts semantic_layer rest parts tables
            end
        end
      else
        match iter_dimensions semantic_layer with
        | Raise e => Raise e
        | Ok ds =>
            match lookup_dimension dim_name ds with
            | Some dimension =>
                build_dimension_parts semantic_layer rest
                  (append_item parts
 (d_table dimension ++ "." ++ d_sql dimension
                             ++ " AS " ++ dim_name))
                  (set_add (d_table dimension) tables)
            | None => build_dimension_parts semantic_layer rest parts tables
            end
        end
  end.

(** Lines 119-124: what one declared join adds to [sql]. *)
Definition join_line (main_table : string) (tables : table_set) (join : Join) : string :=
  if str_in (j_one join) tables || str_in (j_many join) tables then
    if String.eqb (j_one join) main_table
    then "JOIN " ++ j_many join ++ " ON " ++ j_join join ++ nl
    else "JOIN " ++ j_one join ++ " ON " ++ j_join join ++ nl
  else "".

(** Lines 166-175: the loop that fills [group_by_parts]. *)
Fixpoint build_group_by_parts (semantic_layer : SemanticLayer)
    (names : list string) (parts : list string) : result (list string) :=
  match names with
  | [] => Ok parts
  | dim_name :: rest =>
      if endswith dim_name "__week" then
        let base_dim := remove_all "__week" dim_name in
        match iter_dimensions semantic_layer with
        | Raise e => Raise e
        | Ok ds =>
            match lookup_dimension base_dim ds with
            | Some dimension =>
                build_group_by_parts semantic_layer rest
                  (append_item parts
 ("DATE_TRUNC(" ++ d_table dimension ++ "." ++ d_sql dimension
                             ++ ", WEEK)"))
            | None => build_group_by_parts semantic_layer rest parts
            end
        end
      else
        match iter_dimensions semantic_layer with
        | Raise e => Raise e
        | Ok ds =>
            match lookup_dimension dim_name ds with
            | Some dimension =>
                build_group_by_parts semantic_layer rest
                  (append_item parts
 (d_table dimension ++ "." ++ d_sql dimension))
            | None => build_group_by_parts semantic_layer rest parts
            end
        end
  end.

(** [[d.name for d in semantic_layer.dimensions or []]]. *)
Definition dimension_names (semantic_layer : SemanticLayer) : list string :=
  map d_name (match dimensions semantic_layer with Some ds => ds | None => [] end).

Section Compiler.

(** [strptime_ok v] says that [datetime.strptime(v, "%Y-%m-%d")] returns;
    it is [false] when the call raises [ValueError].  The parser belongs
    to Python's library, so the compiler is stated over any such test. *)
Variable strptime_ok : string -> bool.

(** Which member of a set [next(iter(...))] yields. *)
Variable seed : nat.

(** Lines 112-127: [sql] after the FROM and JOIN lines are added. *)
Definition add_from_clause (semantic_layer : SemanticLayer) (tables : table_set)
    (sql : string) : result string :=
  let single :=
    let* t := next_iter seed tables in
    Ok (sql ++ "FROM " ++ t ++ nl) in
  match joins semantic_layer with
  | Some (j0 :: js) =>
      if Nat.ltb 1 (List.length tables) then
        let join_tables :=
          set_union (set_of_list (map j_one (j0 :: js)))
                    (set_of_list (map j_many (j0 :: js))) in
        let* main_table := next_iter seed (set_inter tables join_tables) in
        Ok (fold_left (fun sql join => sql ++ join_line main_table tables join)
              (j0 :: js) (sql ++ "FROM " ++ main_table ++ nl))
      else single
  | _ => single
  end.

(** Lines 134-157: one turn of the loop over the filters; the state is
    [(where_conditions, having_conditions)]. *)
Definition add_filter (semantic_layer : SemanticLayer) (requested_metrics : list string)
    (conds : list string * list string) (filter_obj : Filter)
    : result (list string * list string) :=
  let (where_conditions, having_conditions) := conds in
  if str_in (f_field filter_obj) requested_metrics then
    let* value := py_format (f_value filter_obj) in
    Ok (where_conditions,
        append_item having_conditions
          (f_field filter_obj ++ " " ++ f_operator filter_obj ++ " " ++ value))
  else if is_str (f_value filter_obj)
          && str_in (f_field filter_obj) (dimension_names semantic_layer)
          && strptime_ok (py_str (f_value filter_obj)) then
    let qualified_field := get_qualified_field (f_field filter_obj) semantic_layer in
    let* value := py_format (f_value filter_obj) in
    Ok (append_item where_conditions
          ("DATE(" ++ qualified_field ++ ") " ++ f_operator filter_obj
           ++ " DATE('" ++ value ++ "')"),
        having_conditions)
  else
    let qualified_field := get_qualified_field (f_field filter_obj) semantic_layer in
    if is_int_or_float (f_value filter_obj) then
      let* value := py_format (f_value filter_obj) in
      Ok (append_item where_conditions
            (qualified_field ++ " " ++ f_operator filter_obj ++ " " ++ value),
          having_conditions)
    else
      let* value := py_format (f_value filter_obj) in
      Ok (append_item where_conditions
            (qualified_field ++ " " ++ f_operator filter_obj ++ " '" ++ value ++ "'"),
          having_conditions).

(** Lines 133-157: the loop over [query["filters"]]; it stops at the first
    filter whose condition cannot be formatted. *)
Fixpoint add_filters (semantic_layer : SemanticLayer) (requested_metrics : list string)
    (filters : list Filter) (conds : list string * list string)
    : result (list string * list string) :=
  match filters with
  | [] => Ok conds
  | filter_obj :: rest =>
      match add_filter semantic_layer requested_metrics conds filter_obj with
      | Ok conds' => add_filters semantic_layer requested_metrics rest conds'
      | Raise e => Raise e
      end
  end.

(** Lines 163-177: [sql] after the GROUP BY line, if there is one. *)
Definition add_group_by (query : Query) (semantic_layer : SemanticLayer)
    (dimension_sql_parts : list string) (sql : string) : result string :=
  match dimension_sql_parts with
  | [] => Ok sql
  | _ :: _ =>
      match q_dimensions query with
      | None => Raise (KeyError "dimensions")
      | Some names =>
          let* group_by_parts := build_group_by_parts semantic_layer names [] in
          Ok (sql ++ "GROUP BY " ++ join_with ", " group_by_parts ++ nl)
      end
  end.

(** The compiler, on the value that [parse_semantic_layer] returns. *)
Definition generate_sql (query : Query) (semantic_layer : SemanticLayer) : result string :=
  let requested_metrics := requested_metrics query in
  let* (metric_sql_parts, tables) :=
    build_metric_parts (metrics semantic_layer) requested_metrics [] [] in
  let* (dimension_sql_parts, tables) :=
    match q_dimensions query with
    | Some names => build_dimension_parts semantic_layer names [] tables
    | None => Ok ([], tables)
    end in
  let select_parts := (dimension_sql_parts ++ metric_sql_parts)%list in
  let sql := "SELECT " ++ join_with ", " select_parts ++ nl in
  let* sql := add_from_clause semantic_layer tables sql in
  let* (where_conditions, having_conditions) :=
    match q_filters query with
    | Some fs => add_filters semantic_layer requested_metrics fs ([], [])
    | None => Ok ([], [])
    end in
  let sql :=
    match where_conditions with
    | [] => sql
    | _ :: _ => sql ++ "WHERE " ++ join_with " AND " where_conditions ++ nl
    end in
  let* sql := add_group_by query semantic_layer dimension_sql_parts sql in
  let sql :=
    match having_conditions with
    | [] => sql
    | _ :: _ => sql ++ "HAVING " ++ join_with " AND " having_conditions ++ nl
    end in
  Ok (strip sql).

End Compiler.

(** * [run_sql.py]: [format_value] *)

(** [sub in s] for strings. *)
Fixpoint contains (sub s : string) : bool :=
  match s with
  | EmptyString => prefix sub EmptyString
  | String _ rest => prefix sub s || contains sub rest
  end.

(** [s.split()]: the maximal runs of characters that are not white space.
    [word] is the run being read. *)
Fixpoint split_from (word : string) (s : string) : list string :=
  match s with
  | EmptyString =>
      match word with EmptyString => [] | _ => [word] end
  | String c rest =>
      if isspace c then
        match word with
        | EmptyString => split_from EmptyString rest
        | _ => word :: split_from EmptyString rest
        end
      else split_from (word ++ String c EmptyString) rest
  end.

Definition py_split (s : string) : list string := split_from EmptyString s.

Section FormatValue.

(** The two f-strings of the float branch, [f"${value/1000000:.2f}M"] and
    [f"${value:,.2f}"], as one function of the float: formatting floats is
    left to Python. *)
Variable format_float : string -> string.

(** [format_value], on the values of type [value]; a float is carried by
    its text. *)
Definition format_value (v : value) : result value :=
  match v with
  | VFloat r => Ok (VStr (format_float r))
  | VStr s =>
      if contains "+00:00" s then
        match py_split s with
        | first :: _ => Ok (VStr first)
        | [] => Raise (IndexError "list index out of range")
        end
      else Ok v
  | _ => Ok v
  end.

End FormatValue.

(** * Definitions for the statements

    What follows is not code of the repository: a model of the date parser
    of Python's library, the functions that describe what each loop of
    [generate_sql] computes, and the configurations and queries that the
    examples use. *)

(** ** A model of [datetime.strptime(v, "%Y-%m-%d")]

    The theorems about the compiler hold for every date test.  To run the
    compiler on examples, here is the test that CPython's [_strptime]
    performs for this format, on code points below 256: the value must match
    [(\d\d\d\d)-(1[0-2]|0[1-9]|[1-9])-(3[01]|[12]\d|0[1-9]|[1-9]| [1-9])]
    with nothing left over, and the three numbers must be a date of the
    proleptic Gregorian calendar from year 1 on. *)

Definition is_digit (c : ascii) : bool :=
  let n := nat_of_ascii c in Nat.leb 48 n && Nat.leb n 57.

Definition digit_value (c : ascii) : nat := nat_of_ascii c - 48.

Definition is_leap (year : nat) : bool :=
  Nat.eqb (year mod 4) 0 && (negb (Nat.eqb (year mod 100) 0) || Nat.eqb (year mod 400) 0).

Definition days_in_month (year month : nat) : nat :=
  match month with
  | 2 => if is_leap year then 29 else 28
  | 4 | 6 | 9 | 11 => 30
  | _ => 31
  end.

Definition valid_date (year month day : nat) : bool :=
  Nat.leb 1 year && Nat.leb 1 month && Nat.leb month 12
  && Nat.leb 1 day && Nat.leb day (days_in_month year month).

(** The month group and the dash after it. *)
Definition parse_month (s : string) : option (nat * string) :=
  match s with
  | String a after =>
      let one_char :=
        match after with
        | String "-" rest =>
            if is_digit a && Nat.leb 1 (digit_value a) then Some (digit_value a, rest) else None
        | _ => None
        end in
      match after with
      | String b (String "-" rest) =>
          if Ascii.eqb a "1" && is_digit b && Nat.leb (digit_value b) 2
          then Some (10 + digit_value b, rest)
          else if Ascii.eqb a "0" && is_digit b && Nat.leb 1 (digit_value b)
          then Some (digit_value b, rest)
          else one_char
      | _ => one_char
      end
  | EmptyString => None
  end.

(** The day group: the first alternative that matches decides. *)
Definition parse_day (s : string) : option (nat * string) :=
  let one_char :=
    match s with
    | String a rest =>
        if is_digit a && Nat.leb 1 (digit_value a) then Some (digit_value a, rest) else None
    | EmptyString => None
    end in
  match s with
  | String a (String b rest) =>
      if Ascii.eqb a "3" && is_digit b && Nat.leb (digit_value b) 1
      then Some (30 + digit_value b, rest)
      else if is_digit a && Nat.leb 1 (digit_value a) && Nat.leb (digit_value a) 2 && is_digit b
      then Some (10 * digit_value a + digit_value b, rest)
      else if Ascii.eqb a "0" && is_digit b && Nat.leb 1 (digit_value b)
      then Some (digit_value b, rest)
      else match one_char with
           | Some r => Some r
           | None =>
               if Ascii.eqb a " " && is_digit b && Nat.leb 1 (digit_value b)
               then Some (digit_value b, rest)
               else None
           end
  | _ => one_char
  end.

Definition strptime_Ymd (s : string) : bool :=
  match s with
  | String y1 (String y2 (String y3 (String y4 (String "-" rest)))) =>
      if is_digit y1 && is_digit y2 && is_digit y3 && is_digit y4 then
        let year := 1000 * digit_value y1 + 100 * digit_value y2
                    + 10 * digit_value y3 + digit_value y4 in
        match parse_month rest with
        | Some (month, rest') =>
            match parse_day rest' with
            | Some (day, EmptyString) => valid_date year month day
            | _ => false
            end
        | None => false
        end
      else false
  | _ => false
  end.

(** * What the loops compute

    Each loop of [generate_sql] is described by a function over the list it
    walks, so that the clauses of the result can be read off the query. *)

(** The SELECT item of a resolved metric. *)
Definition metric_item (m : Metric) : string :=
  m_sql m ++ " AS " ++ m_name m.

Definition metric_items (ms : list Metric) (requested : list string) : list string :=
  flat_map (fun n => match lookup_metric n ms with
                     | Some m => [metric_item m]
                     | None => []
                     end) requested.

Definition metric_tables (ms : list Metric) (requested : list string)
    (tables : table_set) : table_set :=
  fold_left (fun t n => match lookup_metric n ms with
                        | Some m => set_add (m_table m) t
                        | None => t
                        end) requested tables.

(** The first requested name that no metric carries. *)
Definition first_missing_metric (ms : list Metric) (requested : list string) : option string :=
  find (fun n => match lookup_metric n ms with None => true | Some _ => false end) requested.

Definition metric_not_found (metric_name : string) : exn :=
  ValueError ("Metric " ++ metric_name ++ " not found in semantic layer").

(** The dimension that a requested name stands for, as the loops of lines
    93-105 and 166-175 look it up. *)
Definition resolve_dimension (ds : list Dimension) (dim_name : string) : option Dimension :=
  if endswith dim_name "__week"
  then lookup_dimension (remove_all "__week" dim_name) ds
  else lookup_dimension dim_name ds.

Definition select_expr (dim_name : string) (d : Dimension) : string :=
  if endswith dim_name "__week"
  then "DATE_TRUNC(" ++ d_table d ++ "." ++ d_sql d ++ ", WEEK) AS " ++ dim_name
  else d_table d ++ "." ++ d_sql d ++ " AS " ++ dim_name.

Definition group_expr (dim_name : string) (d : Dimension) : string :=
  if endswith dim_name "__week"
  then "DATE_TRUNC(" ++ d_table d ++ "." ++ d_sql d ++ ", WEEK)"
  else d_table d ++ "." ++ d_sql d.

Definition dimension_items (ds : list Dimension) (names : list string) : list string :=
  flat_map (fun n => match resolve_dimension ds n with
                     | Some d => [select_expr n d]
                     | None => []
                     end) names.

Definition group_items (ds : list Dimension) (names : list string) : list string :=
  flat_map (fun n => match resolve_dimension ds n with
                     | Some d => [group_expr n d]
                     | None => []
                     end) names.

Definition dimension_tables (ds : list Dimension) (names : list string)
    (tables : table_set) : table_set :=
  fold_left (fun t n => match resolve_dimension ds n with
                        | Some d => set_add (d_table d) t
                        | None => t
                        end) names tables.

(** [query["dimensions"]] when the key is there, nothing otherwise. *)
Definition requested_dimensions (query : Query) : list string :=
  match q_dimensions query with Some l => l | None => [] end.

(** [semantic_layer.dimensions or []]. *)
Definition schema_dimensions (semantic_layer : SemanticLayer) : list Dimension :=
  match dimensions semantic_layer with Some ds => ds | None => [] end.

(** The conditions that the filter loop produces. *)

Section Filters.

Variable strptime_ok : string -> bool.
Variable semantic_layer : SemanticLayer.
Variable requested : list string.

(** Line 137: the test that sends a filter to HAVING. *)
Definition is_metric_filter (f : Filter) : bool :=
  str_in (f_field f) requested.

(** Lines 142-144: the test of the date rule. *)
Definition is_date_filter (f : Filter) : bool :=
  is_str (f_value f)
  && str_in (f_field f) (dimension_names semantic_layer)
  && strptime_ok (py_str (f_value f)).

(** The text of a HAVING condition (line 138). *)
Definition having_text (f : Filter) : string :=
  f_field f ++ " " ++ f_operator f ++ " " ++ py_str (f_value f).

(** The text of a WHERE condition (lines 147, 155 and 157). *)
Definition where_text (f : Filter) : string :=
  let qualified_field := get_qualified_field (f_field f) semantic_layer in
  if is_date_filter f then
    "DATE(" ++ qualified_field ++ ") " ++ f_operator f
    ++ " DATE('" ++ py_str (f_value f) ++ "')"
  else if is_int_or_float (f_value f) then
    qualified_field ++ " " ++ f_operator f ++ " " ++ py_str (f_value f)
  else
    qualified_field ++ " " ++ f_operator f ++ " '" ++ py_str (f_value f) ++ "'".

Definition where_conditions (fs : list Filter) : list string :=
  map where_text (filter (fun f => negb (is_metric_filter f)) fs).

Definition having_conditions (fs : list Filter) : list string :=
  map having_text (filter is_metric_filter fs).

End Filters.

(** [query["filters"]] when the key is there, nothing otherwise. *)
Definition requested_filters (query : Query) : list Filter :=
  match q_filters query with Some fs => fs | None => [] end.

(** The value is an [int] too long for [str()]. *)
Definition oversized (v : value) : bool :=
  match v with
  | VInt n => Nat.ltb int_max_str_digits (int_digits n)
  | _ => false
  end.

(** Some filter of the query has a value that cannot be formatted. *)
Definition oversized_filter (query : Query) : bool :=
  existsb (fun f => oversized (f_value f)) (requested_filters query).

(** The FROM and JOIN lines. *)

(** The JOIN lines that the loop over the declared joins adds. *)
Definition join_lines (main_table : string) (tables : table_set) (js : list Join) : string :=
  fold_right (fun j rest => join_line main_table tables j ++ rest) "" js.

(** The table names at the two ends of the declared joins. *)
Definition join_tables (js : list Join) : table_set :=
  set_union (set_of_list (map j_one js)) (set_of_list (map j_many js)).

(** The FROM and JOIN lines on their own. *)
Definition from_block (seed : nat) (semantic_layer : SemanticLayer) (tables : table_set)
    : result string :=
  add_from_clause seed semantic_layer tables "".

(** The statement as a whole. *)

(** The tables that the resolved metrics and dimensions of a query name. *)
Definition required_tables (query : Query) (semantic_layer : SemanticLayer) : table_set :=
  dimension_tables (schema_dimensions semantic_layer) (requested_dimensions query)
    (metric_tables (metrics semantic_layer) (requested_metrics query) []).

(** A clause that is left out when it has no part. *)
Definition clause (keyword sep : string) (parts : list string) : string :=
  match parts with
  | [] => ""
  | _ :: _ => keyword ++ join_with sep parts ++ nl
  end.

Definition select_list (query : Query) (semantic_layer : SemanticLayer) : list string :=
  (dimension_items (schema_dimensions semantic_layer) (requested_dimensions query)
   ++ metric_items (metrics semantic_layer) (requested_metrics query))%list.

(** The five clauses put together, before [strip()]. *)
Definition assemble (select : list string) (block : string)
    (where_parts group_parts having_parts : list string) : string :=
  "SELECT " ++ join_with ", " select ++ nl
  ++ block
  ++ clause "WHERE " " AND " where_parts
  ++ clause "GROUP BY " ", " group_parts
  ++ clause "HAVING " " AND " having_parts.

(** The text before [strip()], given the FROM and JOIN lines. *)
Definition statement (strptime_ok : string -> bool) (query : Query)
    (semantic_layer : SemanticLayer) (block : string) : string :=
  assemble (select_list query semantic_layer) block
    (where_conditions strptime_ok semantic_layer (requested_metrics query)
       (requested_filters query))
    (group_items (schema_dimensions semantic_layer) (requested_dimensions query))
    (having_conditions (requested_metrics query) (requested_filters query)).

(** The query names a dimension and the configuration has no dimension
    list to search. *)
Definition dimensions_unreadable (query : Query) (semantic_layer : SemanticLayer) : bool :=
  match q_dimensions query, dimensions semantic_layer with
  | Some (_ :: _), None => true
  | _, _ => false
  end.

(** The JOIN line of one declared join, in the words of the specification: the
    join whose [one] table is the anchor brings in its [many] table; any
    other join with an end in the required tables brings in its [one]
    table. *)
Definition claimed_join_line (anchor : string) (tables : table_set) (j : Join) : string :=
  if String.eqb anchor (j_one j) then
    "JOIN " ++ j_many j ++ " ON " ++ j_join j ++ nl
  else if str_in (j_one j) tables || str_in (j_many j) tables then
    "JOIN " ++ j_one j ++ " ON " ++ j_join j ++ nl
  else "".

(** The requested dimension names that resolve, in the order of the query. *)
Definition resolved_names (ds : list Dimension) (names : list string) : list string :=
  filter (fun n => match resolve_dimension ds n with Some _ => true | None => false end) names.

(** The precondition of the FROM step, in the words of the specification: some
    table is required and, when joins are declared and more than one table
    is required, a required table is an end of a declared join. *)
Definition anchor_available (sl : SemanticLayer) (tables : table_set) : bool :=
  match tables with
  | [] => false
  | _ :: _ =>
      match joins sl with
      | Some (j0 :: js) =>
          if Nat.ltb 1 (List.length tables)
          then existsb (fun t => str_in t (map j_one (j0 :: js))
                                 || str_in t (map j_many (j0 :: js))) tables
          else true
      | _ => true
      end
  end.

(** No [__week] starts inside [base] when [base ++ "__week"] is read from
    the left: the only occurrence in the name is the suffix. *)
Fixpoint week_only_at_end (base : string) : bool :=
  match base with
  | EmptyString => true
  | String c rest => negb (prefix "__week" (base ++ "__week")) && week_only_at_end rest
  end.

(** The dimension lists of two schemas hold the same declarations, with
    distinct names. *)
Definition same_dimensions (a b : option (list Dimension)) : Prop :=
  match a, b with
  | Some x, Some y => Permutation x y /\ NoDup (map d_name x)
  | None, None => True
  | _, _ => False
  end.

(** The characters of [s] up to the first white space. *)
Fixpoint first_word (s : string) : string :=
  match s with
  | EmptyString => EmptyString
  | String c rest => if isspace c then EmptyString else String c (first_word rest)
  end.

(** The configurations and queries of [test_semantic_layer.py]. *)

Definition total_revenue : Metric :=
  mkMetric "total_revenue" "SUM(sale_price)" "order_items".

Definition orders_join : Join :=
  mkJoin "orders" "order_items" "order_items.order_id = orders.order_id".

Definition semantic1 : SemanticLayer := mkSemanticLayer [total_revenue] None None.

Definition query1 : Query := mkQuery (Some ["total_revenue"]) None None.

Definition semantic5 : SemanticLayer :=
  mkSemanticLayer [mkMetric "count_of_orders" "COUNT(order_id)" "orders"]
    (Some [mkDimension "status" "status" "orders"; mkDimension "gender" "gender" "orders"])
    None.

Definition query5 : Query :=
  mkQuery (Some ["count_of_orders"]) None
    (Some [mkFilter "status" "=" (VStr "Complete"); mkFilter "gender" "=" (VStr "F")]).

Definition semantic6 : SemanticLayer :=
  mkSemanticLayer [total_revenue]
    (Some [mkDimension "order_id" "order_id" "order_items"]) None.

Definition query6 : Query :=
  mkQuery (Some ["total_revenue"]) (Some ["order_id"])
    (Some [mkFilter "total_revenue" ">" (VInt 1000)]).

Definition semantic7 : SemanticLayer :=
  mkSemanticLayer [total_revenue]
    (Some [mkDimension "order_id" "order_id" "order_items";
           mkDimension "gender" "gender" "orders";
           mkDimension "status" "status" "orders"])
    (Some [orders_join]).

Definition query7 : Query :=
  mkQuery (Some ["total_revenue"]) (Some ["order_id"; "gender"; "status"])
    (Some [mkFilter "total_revenue" ">" (VInt 1000)]).

Definition semantic8 : SemanticLayer :=
  mkSemanticLayer [total_revenue]
    (Some [mkDimension "ordered_date" "created_at" "orders"])
    (Some [orders_join]).

Definition query8 : Query :=
  mkQuery (Some ["total_revenue"]) (Some ["ordered_date__week"])
    (Some [mkFilter "ordered_date" ">=" (VStr "2024-01-01")]).

(** A schema with a second join that does not touch the first two tables. *)
Definition semantic_two_joins : SemanticLayer :=
  mkSemanticLayer [total_revenue]
    (Some [mkDimension "gender" "gender" "orders"; mkDimension "country" "country" "users"])
    (Some [orders_join; mkJoin "users" "events" "events.user_id = users.id"]).

Definition query_two_joins : Query :=
  mkQuery (Some ["total_revenue"]) (Some ["gender"; "country"]) None.

(** A schema whose join does not reach the tables of the query. *)
Definition semantic_unreached : SemanticLayer :=
  mkSemanticLayer [total_revenue]
    (Some [mkDimension "country" "country" "users"])
    (Some [mkJoin "products" "inventory" "inventory.product_id = products.id"]).

(** A schema with a dimension whose own name ends in [__week]. *)
Definition semantic_week : SemanticLayer :=
  mkSemanticLayer [mkMetric "user_count" "COUNT(*)" "users"]
    (Some [mkDimension "signup" "created_at" "users";
           mkDimension "signup__week" "signup_week" "users"])
    None.

Definition query_week : Query :=
  mkQuery (Some ["user_count"]) (Some ["signup__week__week"]) None.

(** A metric and a dimension that share the name [created]. *)
Definition semantic_created : SemanticLayer :=
  mkSemanticLayer [mkMetric "created" "MAX(created_at)" "orders"]
    (Some [mkDimension "created" "created_at" "orders"])
    None.

Definition query_created : Query :=
  mkQuery (Some ["created"]) None
    (Some [mkFilter "created" ">=" (VStr "2024-01-01")]).

Definition query_revenue_label : Query :=
  mkQuery (Some ["total_revenue"]) (Some ["order_id"])
    (Some [mkFilter "total_revenue" "=" (VStr "high")]).

(** A numeric filter, and a string filter whose value holds a quote. *)
Definition query_plain_filters : Query :=
  mkQuery (Some ["count_of_orders"]) None
    (Some [mkFilter "num_of_item" ">" (VInt 1);
           mkFilter "status" "=" (VStr "Won't ship")]).

(** [semantic7] with its dimensions declared in another order. *)
Definition semantic7_reordered : SemanticLayer :=
  mkSemanticLayer [total_revenue]
    (Some [mkDimension "status" "status" "orders";
           mkDimension "order_id" "order_id" "order_items";
           mkDimension "gender" "gender" "orders"])
    (Some [orders_join]).

(** [semantic7] without its join. *)
Definition semantic7_no_joins : SemanticLayer :=
  mkSemanticLayer (metrics semantic7) (dimensions semantic7) None.

(** [query6] with a threshold of 4301 digits. *)
Definition query_huge : Query :=
  mkQuery (Some ["total_revenue"]) (Some ["order_id"])
    (Some [mkFilter "total_revenue" ">" (VInt (10 ^ 4300))]).

(** * Lemmas about the embedding *)

(** ** Strings *)

Lemma string_app_assoc (a b c : string) : (a ++ b) ++ c = a ++ (b ++ c).
Proof.
  induction a as [|x a IH]; simpl; [reflexivity | now rewrite IH].
Qed.

Lemma string_app_nil_r (a : string) : a ++ "" = a.
Proof.
  induction a as [|x a IH]; simpl; [reflexivity | now rewrite IH].
Qed.

(** ** The metric loop *)

Lemma build_metric_parts_spec (ms : list Metric) (requested : list string) :
  forall parts tables,
    build_metric_parts ms requested parts tables =
    match first_missing_metric ms requested with
    | Some n => Raise (metric_not_found n)
    | None => Ok ((parts ++ metric_items ms requested)%list,
                  metric_tables ms requested tables)
    end.
Proof.
  induction requested as [|n rest IH]; intros parts tables; simpl.
  - now rewrite app_nil_r.
  - unfold first_missing_metric in *; simpl.
    destruct (lookup_metric n ms) as [m|] eqn:Hm; [|reflexivity].
    rewrite IH. destruct (find _ rest); [reflexivity|].
    unfold append_item. now rewrite <- app_assoc.
Qed.

Lemma first_missing_metric_some (ms : list Metric) (requested : list string) (n : string) :
  first_missing_metric ms requested = Some n ->
  In n requested /\ lookup_metric n ms = None.
Proof.
  intros H. apply find_some in H. destruct H as [Hin Hn].
  split; [assumption|]. destruct (lookup_metric n ms); [discriminate | reflexivity].
Qed.

Lemma first_missing_metric_none (ms : list Metric) (requested : list string) :
  first_missing_metric ms requested = None ->
  forall n, In n requested -> exists m, lookup_metric n ms = Some m.
Proof.
  intros H n Hin. pose proof (find_none _ _ H n Hin) as Hn. simpl in Hn.
  destruct (lookup_metric n ms) as [m|]; [now exists m | discriminate].
Qed.

(** ** The dimension loops *)

Lemma build_dimension_parts_spec (sl : SemanticLayer) (ds : list Dimension) :
  dimensions sl = Some ds ->
  forall names parts tables,
    build_dimension_parts sl names parts tables =
    Ok ((parts ++ dimension_items ds names)%list, dimension_tables ds names tables).
Proof.
  intros Hds. induction names as [|n rest IH]; intros parts tables; simpl.
  - now rewrite app_nil_r.
  - unfold iter_dimensions, resolve_dimension, select_expr. rewrite Hds.
    destruct (endswith n "__week");
      (destruct (lookup_dimension _ ds) as [d|]; rewrite IH;
       [unfold append_item; now rewrite <- app_assoc | reflexivity]).
Qed.

Lemma build_dimension_parts_none (sl : SemanticLayer) :
  dimensions sl = None ->
  forall n rest parts tables,
    build_dimension_parts sl (n :: rest) parts tables =
    Raise (TypeError "'NoneType' object is not iterable").
Proof.
  intros Hds n rest parts tables. simpl. unfold iter_dimensions. rewrite Hds.
  now destruct (endswith n "__week").
Qed.

Lemma build_group_by_parts_spec (sl : SemanticLayer) (ds : list Dimension) :
  dimensions sl = Some ds ->
  forall names parts,
    build_group_by_parts sl names parts = Ok (parts ++ group_items ds names)%list.
Proof.
  intros Hds. induction names as [|n rest IH]; intros parts; simpl.
  - now rewrite app_nil_r.
  - unfold iter_dimensions, resolve_dimension, group_expr. rewrite Hds.
    destruct (endswith n "__week");
      (destruct (lookup_dimension _ ds) as [d|]; rewrite IH;
       [unfold append_item; now rewrite <- app_assoc | reflexivity]).
Qed.

Lemma group_items_nil_iff (ds : list Dimension) (names : list string) :
  group_items ds names = [] <-> dimension_items ds names = [].
Proof.
  unfold group_items, dimension_items.
  induction names as [|n rest IH]; simpl; [tauto|].
  destruct (resolve_dimension ds n); simpl; [|exact IH].
  split; discriminate.
Qed.

(** ** The filter loop *)

Lemma py_format_eq (v : value) :
  py_format v = if oversized v then Raise digit_limit_error else Ok (py_str v).
Proof.
  destruct v as [s|n|r|b|]; reflexivity.
Qed.

Lemma oversized_is_int (v : value) :
  oversized v = true -> is_str v = false /\ is_int_or_float v = true.
Proof.
  destruct v; try discriminate. now split.
Qed.

Lemma add_filter_step (strptime_ok : string -> bool) (sl : SemanticLayer)
    (requested : list string) (w h : list string) (f : Filter) :
  add_filter strptime_ok sl requested (w, h) f =
  if oversized (f_value f) then Raise digit_limit_error
  else if is_metric_filter requested f
  then Ok (w, (h ++ [having_text f])%list)
  else Ok ((w ++ [where_text strptime_ok sl f])%list, h).
Proof.
  unfold add_filter, is_metric_filter, where_text, is_date_filter, having_text, append_item.
  rewrite py_format_eq.
  destruct (oversized (f_value f)) eqn:Hover.
  - destruct (oversized_is_int _ Hover) as [Hs Hi]. rewrite Hs, Hi. cbn [andb bind].
    now destruct (str_in (f_field f) requested).
  - cbn [bind]. destruct (str_in (f_field f) requested); [reflexivity|].
    destruct (is_str (f_value f) && str_in (f_field f) (dimension_names sl)
              && strptime_ok (py_str (f_value f))); [reflexivity|].
    destruct (is_int_or_float (f_value f)); reflexivity.
Qed.

Lemma add_filters_eq (strptime_ok : string -> bool) (sl : SemanticLayer)
    (requested : list string) (fs : list Filter) :
  forall w h,
    add_filters strptime_ok sl requested fs (w, h) =
    if existsb (fun f => oversized (f_value f)) fs then Raise digit_limit_error
    else Ok ((w ++ where_conditions strptime_ok sl requested fs)%list,
             (h ++ having_conditions requested fs)%list).
Proof.
  unfold where_conditions, having_conditions.
  induction fs as [|f fs IH]; intros w h; cbn [add_filters existsb filter map].
  - now rewrite !app_nil_r.
  - rewrite add_filter_step.
    destruct (oversized (f_value f)); cbn [orb]; [reflexivity|].
    destruct (is_metric_filter requested f); cbn [negb map]; rewrite IH;
      destruct (existsb _ fs); try reflexivity; now rewrite <- !app_assoc.
Qed.

(** ** FROM and JOIN *)

Lemma fold_left_join_line (main_table : string) (tables : table_set) (js : list Join) :
  forall sql,
    fold_left (fun sql join => sql ++ join_line main_table tables join) js sql =
    sql ++ join_lines main_table tables js.
Proof.
  induction js as [|j js IH]; intros sql; simpl.
  - now rewrite string_app_nil_r.
  - rewrite IH. now rewrite string_app_assoc.
Qed.

Lemma add_from_clause_app (seed : nat) (sl : SemanticLayer) (tables : table_set) (sql : string) :
  add_from_clause seed sl tables sql =
  let* block := from_block seed sl tables in Ok (sql ++ block).
Proof.
  unfold from_block, add_from_clause.
  assert (Hsingle :
    (let* t := next_iter seed tables in Ok (sql ++ "FROM " ++ t ++ nl)) =
    (let* block := (let* t := next_iter seed tables in Ok ("" ++ "FROM " ++ t ++ nl))
     in Ok (sql ++ block))).
  { destruct (next_iter seed tables); reflexivity. }
  destruct (joins sl) as [[|j0 js]|]; try exact Hsingle.
  destruct (Nat.ltb 1 (List.length tables)); try exact Hsingle.
  clear Hsingle.
  destruct (next_iter seed (set_inter tables _)) as [main|e]; [|reflexivity].
  cbn [bind]. rewrite !fold_left_join_line. f_equal.
  now rewrite !string_app_assoc.
Qed.

(** ** The whole statement *)

Lemma dimension_loop_eq (query : Query) (sl : SemanticLayer) (tables : table_set) :
  match q_dimensions query with
  | Some names => build_dimension_parts sl names [] tables
  | None => Ok ([], tables)
  end =
  if dimensions_unreadable query sl
  then Raise (TypeError "'NoneType' object is not iterable")
  else Ok (dimension_items (schema_dimensions sl) (requested_dimensions query),
           dimension_tables (schema_dimensions sl) (requested_dimensions query) tables).
Proof.
  unfold dimensions_unreadable, schema_dimensions, requested_dimensions.
  destruct (q_dimensions query) as [names|]; [|reflexivity].
  destruct (dimensions sl) as [ds|] eqn:Hds.
  - rewrite (build_dimension_parts_spec sl ds Hds). now destruct names.
  - destruct names as [|n rest]; [reflexivity|].
    now rewrite build_dimension_parts_none.
Qed.

Lemma group_by_eq (query : Query) (sl : SemanticLayer) (sql : string) :
  dimensions_unreadable query sl = false ->
  add_group_by query sl
    (dimension_items (schema_dimensions sl) (requested_dimensions query)) sql =
  Ok (sql ++ clause "GROUP BY " ", "
               (group_items (schema_dimensions sl) (requested_dimensions query))).
Proof.
  unfold add_group_by, dimensions_unreadable, schema_dimensions, requested_dimensions.
  intros Hread.
  destruct (q_dimensions query) as [names|]; simpl;
    [|now rewrite string_app_nil_r].
  destruct (dimension_items _ names) as [|i items] eqn:Hitems.
  - apply group_items_nil_iff in Hitems. rewrite Hitems. simpl.
    now rewrite string_app_nil_r.
  - destruct (dimensions sl) as [ds|] eqn:Hds.
    + rewrite (build_group_by_parts_spec sl ds Hds). simpl.
      destruct (group_items ds names) eqn:Hg; [|reflexivity].
      apply group_items_nil_iff in Hg. congruence.
    + destruct names; [discriminate Hitems | discriminate Hread].
Qed.

Lemma generate_sql_eq (strptime_ok : string -> bool) (seed : nat)
    (query : Query) (sl : SemanticLayer) :
  generate_sql strptime_ok seed query sl =
  match first_missing_metric (metrics sl) (requested_metrics query) with
  | Some n => Raise (metric_not_found n)
  | None =>
      if dimensions_unreadable query sl
      then Raise (TypeError "'NoneType' object is not iterable")
      else
        let* block := from_block seed sl (required_tables query sl) in
        if oversized_filter query then Raise digit_limit_error
        else Ok (strip (statement strptime_ok query sl block))
  end.
Proof.
  unfold generate_sql. rewrite build_metric_parts_spec.
  destruct (first_missing_metric _ _); [reflexivity|]. cbn [bind app].
  rewrite dimension_loop_eq.
  destruct (dimensions_unreadable query sl) eqn:Hread; [reflexivity|]. cbn [bind].
  rewrite add_from_clause_app. fold (required_tables query sl).
  destruct (from_block seed sl (required_tables query sl)) as [block|e]; [|reflexivity].
  cbn [bind].
  replace (match q_filters query with
           | Some fs => add_filters strptime_ok sl (requested_metrics query) fs ([], [])
           | None => Ok ([], [])
           end)
    with (if oversized_filter query then Raise digit_limit_error
          else Ok (where_conditions strptime_ok sl (requested_metrics query)
                     (requested_filters query),
                   having_conditions (requested_metrics query) (requested_filters query))).
  2:{ unfold oversized_filter, requested_filters.
      destruct (q_filters query) as [fs|]; [|reflexivity].
      now rewrite add_filters_eq. }
  destruct (oversized_filter query); [reflexivity|]. cbn [bind].
  rewrite group_by_eq by exact Hread. cbn [bind].
  f_equal. f_equal. unfold statement, assemble, select_list, clause.
  destruct (where_conditions _ _ _ _); destruct (having_conditions _ _);
    rewrite ?string_app_nil_r, ?string_app_assoc; reflexivity.
Qed.

(** ** Picking a member of a set *)

Lemma next_iter_nil (seed : nat) : next_iter seed [] = Raise StopIteration.
Proof.
  unfold next_iter. now destruct (seed mod List.length (@nil string)).
Qed.

Lemma next_iter_cons (seed : nat) (t : string) (s : table_set) :
  exists u, next_iter seed (t :: s) = Ok u /\ In u (t :: s).
Proof.
  unfold next_iter.
  destruct (nth_error (t :: s) (seed mod List.length (t :: s))) as [u|] eqn:Hn.
  - exists u. split; [reflexivity | exact (nth_error_In _ _ Hn)].
  - apply nth_error_None in Hn.
    pose proof (Nat.mod_upper_bound seed (List.length (t :: s))) as Hlt.
    simpl in Hn, Hlt. lia.
Qed.

Lemma next_iter_ok (seed : nat) (s : table_set) (u : string) :
  next_iter seed s = Ok u -> In u s.
Proof.
  unfold next_iter.
  destruct (nth_error s _) as [v|] eqn:Hn; [|discriminate].
  intros H. injection H as <-. exact (nth_error_In _ _ Hn).
Qed.

Lemma next_iter_raise (seed : nat) (s : table_set) (e : exn) :
  next_iter seed s = Raise e -> e = StopIteration /\ s = [].
Proof.
  destruct s as [|t s].
  - rewrite next_iter_nil. intros H. now injection H as <-.
  - destruct (next_iter_cons seed t s) as [u [Hu _]]. rewrite Hu. discriminate.
Qed.

Lemma from_block_raise (seed : nat) (sl : SemanticLayer) (tables : table_set) (e : exn) :
  from_block seed sl tables = Raise e -> e = StopIteration.
Proof.
  unfold from_block, add_from_clause.
  assert (Hsingle :
    (let* t := next_iter seed tables in Ok ("" ++ "FROM " ++ t ++ nl)) = Raise e ->
    e = StopIteration).
  { destruct (next_iter seed tables) as [t|e'] eqn:Ht; [discriminate|].
    cbn [bind]. intros H. injection H as <-. now apply next_iter_raise in Ht. }
  destruct (joins sl) as [[|j0 js]|]; try exact Hsingle.
  destruct (Nat.ltb 1 (List.length tables)); try exact Hsingle.
  clear Hsingle.
  destruct (next_iter seed (set_inter tables _)) as [t|e'] eqn:Ht; [discriminate|].
  cbn [bind]. intros H. injection H as <-. now apply next_iter_raise in Ht.
Qed.

(** ** First matches *)

Lemma find_first {A : Type} (p : A -> bool) (before : list A) (x : A) (after : list A) :
  p x = true ->
  (forall y, In y before -> p y = false) ->
  find p (before ++ x :: after) = Some x.
Proof.
  intros Hx. induction before as [|y before IH]; intros Hb; simpl.
  - now rewrite Hx.
  - rewrite (Hb y (or_introl eq_refl)). apply IH.
    intros z Hz. apply Hb. now right.
Qed.

Lemma find_absent {A : Type} (p : A -> bool) (l : list A) :
  (forall y, In y l -> p y = false) -> find p l = None.
Proof.
  induction l as [|y l IH]; intros Hl; simpl; [reflexivity|].
  rewrite (Hl y (or_introl eq_refl)). apply IH.
  intros z Hz. apply Hl. now right.
Qed.

(** [get_qualified_field] through the two lookups. *)
Lemma get_qualified_field_eq (field : string) (sl : SemanticLayer) :
  get_qualified_field field sl =
  match lookup_dimension field (schema_dimensions sl) with
  | Some d => d_table d ++ "." ++ d_sql d
  | None =>
      match lookup_metric field (metrics sl) with
      | Some m => m_table m ++ "." ++ m_sql m
      | None => field
      end
  end.
Proof.
  unfold get_qualified_field, schema_dimensions.
  destruct (dimensions sl) as [[|d0 ds]|]; reflexivity.
Qed.

(** ** Membership in the table sets *)

Lemma str_in_In (x : string) (l : list string) : str_in x l = true <-> In x l.
Proof.
  unfold str_in. rewrite existsb_exists. split.
  - intros [y [Hy Heq]]. apply String.eqb_eq in Heq. now subst.
  - intros H. exists x. split; [assumption | apply String.eqb_refl].
Qed.

Lemma str_in_set_add (x y : string) (s : table_set) :
  str_in x (set_add y s) = String.eqb x y || str_in x s.
Proof.
  unfold set_add. destruct (str_in y s) eqn:Hy.
  - destruct (String.eqb_spec x y) as [->|_]; [now rewrite Hy | reflexivity].
  - unfold str_in. rewrite existsb_app. simpl.
    now rewrite orb_false_r, orb_comm.
Qed.

Lemma str_in_fold_add (x : string) (l : list string) :
  forall s, str_in x (fold_left (fun s y => set_add y s) l s) = str_in x s || str_in x l.
Proof.
  induction l as [|y l IH]; intros s; simpl.
  - now rewrite orb_false_r.
  - rewrite IH, str_in_set_add.
    destruct (String.eqb x y), (str_in x s), (str_in x l); reflexivity.
Qed.

Lemma str_in_join_tables (x : string) (js : list Join) :
  str_in x (join_tables js) = str_in x (map j_one js) || str_in x (map j_many js).
Proof.
  unfold join_tables, set_union, set_of_list.
  rewrite str_in_fold_add. rewrite !str_in_fold_add. simpl.
  destruct (str_in x (map j_one js)); simpl; [reflexivity|].
  now destruct (str_in x (map j_many js)).
Qed.

Lemma set_inter_nil_iff (a b : table_set) :
  set_inter a b = [] <-> existsb (fun t => str_in t b) a = false.
Proof.
  unfold set_inter. induction a as [|t a IH]; simpl; [tauto|].
  destruct (str_in t b); simpl; [|exact IH].
  split; discriminate.
Qed.

(** The FROM and JOIN lines when the join planner runs. *)
Lemma from_block_joined (seed : nat) (sl : SemanticLayer) (tables : table_set)
    (j0 : Join) (js : list Join) :
  joins sl = Some (j0 :: js) ->
  1 < List.length tables ->
  from_block seed sl tables =
  let* main_table := next_iter seed (set_inter tables (join_tables (j0 :: js))) in
  Ok ("FROM " ++ main_table ++ nl ++ join_lines main_table tables (j0 :: js)).
Proof.
  intros Hj Hlen. unfold from_block, add_from_clause. rewrite Hj.
  apply Nat.ltb_lt in Hlen. rewrite Hlen. fold (join_tables (j0 :: js)).
  destruct (next_iter seed _) as [main|e]; [|reflexivity].
  cbn [bind]. rewrite fold_left_join_line. f_equal.
  now rewrite !string_app_assoc.
Qed.

(** The FROM line when the join planner does not run. *)
Lemma from_block_single (seed : nat) (sl : SemanticLayer) (tables : table_set) :
  (joins sl = None \/ joins sl = Some [] \/ List.length tables <= 1) ->
  from_block seed sl tables =
  let* t := next_iter seed tables in Ok ("FROM " ++ t ++ nl).
Proof.
  intros H. unfold from_block, add_from_clause.
  destruct (joins sl) as [[|j0 js]|]; try reflexivity.
  destruct (Nat.ltb 1 (List.length tables)) eqn:Hlt; [|reflexivity].
  apply Nat.ltb_lt in Hlt.
  destruct H as [H|[H|H]]; [discriminate | discriminate | lia].
Qed.

Lemma join_line_claimed (anchor : string) (tables : table_set) (j : Join) :
  In anchor tables ->
  join_line anchor tables j = claimed_join_line anchor tables j.
Proof.
  intros Hin. unfold join_line, claimed_join_line.
  rewrite (String.eqb_sym (j_one j) anchor).
  destruct (String.eqb_spec anchor (j_one j)) as [<-|_].
  - apply str_in_In in Hin. now rewrite Hin.
  - reflexivity.
Qed.

(** ** The SELECT items *)

Lemma dimension_items_resolved (ds : list Dimension) (names : list string) :
  Forall2 (fun n item => exists d, resolve_dimension ds n = Some d /\ item = select_expr n d)
    (resolved_names ds names) (dimension_items ds names).
Proof.
  unfold resolved_names, dimension_items.
  induction names as [|n names IH]; simpl; [constructor|].
  destruct (resolve_dimension ds n) as [d|] eqn:Hd; simpl; [|exact IH].
  constructor; [|exact IH]. exists d. now split.
Qed.

Lemma metric_items_resolved (ms : list Metric) (requested : list string) :
  first_missing_metric ms requested = None ->
  Forall2 (fun n item => exists m, lookup_metric n ms = Some m
                                   /\ item = m_sql m ++ " AS " ++ m_name m)
    requested (metric_items ms requested).
Proof.
  unfold first_missing_metric, metric_items.
  induction requested as [|n rest IH]; simpl; [constructor|].
  destruct (lookup_metric n ms) as [m|] eqn:Hm; [|discriminate].
  intros Hrest. simpl. constructor; [|exact (IH Hrest)].
  exists m. now split.
Qed.

(** ** Filters that go to WHERE *)

Lemma where_conditions_app (strptime_ok : string -> bool) (sl : SemanticLayer)
    (requested : list string) (before after : list Filter) :
  where_conditions strptime_ok sl requested (before ++ after) =
  (where_conditions strptime_ok sl requested before
   ++ where_conditions strptime_ok sl requested after)%list.
Proof.
  unfold where_conditions. now rewrite filter_app, map_app.
Qed.

Lemma where_conditions_cons (strptime_ok : string -> bool) (sl : SemanticLayer)
    (requested : list string) (f : Filter) (after : list Filter) :
  ~ In (f_field f) requested ->
  where_conditions strptime_ok sl requested (f :: after) =
  where_text strptime_ok sl f :: where_conditions strptime_ok sl requested after.
Proof.
  intros Hnot. unfold where_conditions, is_metric_filter. simpl.
  destruct (str_in (f_field f) requested) eqn:Hin; [|reflexivity].
  apply str_in_In in Hin. contradiction.
Qed.

(** What [generate_sql] returns when one filter that goes to WHERE is
    singled out. *)
Lemma generate_sql_where_filter (strptime_ok : string -> bool) (seed : nat)
    (query : Query) (sl : SemanticLayer) (before : list Filter) (f : Filter)
    (after : list Filter) (out : string) :
  generate_sql strptime_ok seed query sl = Ok out ->
  requested_filters query = (before ++ f :: after)%list ->
  ~ In (f_field f) (requested_metrics query) ->
  exists block,
    from_block seed sl (required_tables query sl) = Ok block
    /\ out = strip (assemble (select_list query sl) block
               (where_conditions strptime_ok sl (requested_metrics query) before
                ++ where_text strptime_ok sl f
                   :: where_conditions strptime_ok sl (requested_metrics query) after)%list
               (group_items (schema_dimensions sl) (requested_dimensions query))
               (having_conditions (requested_metrics query) (requested_filters query))).
Proof.
  rewrite generate_sql_eq.
  destruct (first_missing_metric _ _); [discriminate|].
  destruct (dimensions_unreadable query sl); [discriminate|].
  destruct (from_block seed sl (required_tables query sl)) as [block|e]; [|discriminate].
  cbn [bind]. destruct (oversized_filter query); [discriminate|].
  intros H Hfs Hnot. injection H as <-.
  exists block. split; [reflexivity|].
  unfold statement. rewrite Hfs at 1.
  now rewrite where_conditions_app, where_conditions_cons.
Qed.

(** ** When a FROM table can be picked *)

Lemma existsb_join_tables (js : list Join) (l : list string) :
  existsb (fun u => str_in u (join_tables js)) l =
  existsb (fun t => str_in t (map j_one js) || str_in t (map j_many js)) l.
Proof.
  induction l as [|u l IH]; cbn [existsb]; [reflexivity|].
  now rewrite IH, str_in_join_tables.
Qed.

Lemma from_block_raise_unavailable (seed : nat) (sl : SemanticLayer) (tables : table_set) (e : exn) :
  from_block seed sl tables = Raise e -> anchor_available sl tables = false.
Proof.
  unfold anchor_available. intros H.
  destruct tables as [|t ts]; [reflexivity|].
  assert (Hsingle :
    from_block seed sl (t :: ts) =
      (let* u := next_iter seed (t :: ts) in Ok ("FROM " ++ u ++ nl)) -> False).
  { intros Heq. rewrite Heq in H.
    destruct (next_iter_cons seed t ts) as [u [Hu _]]. rewrite Hu in H. discriminate. }
  destruct (joins sl) as [[|j0 js]|] eqn:Hj;
    try (exfalso; apply Hsingle, from_block_single; rewrite Hj; tauto).
  destruct (Nat.ltb 1 (List.length (t :: ts))) eqn:Hlt.
  - clear Hsingle. apply Nat.ltb_lt in Hlt.
    rewrite (from_block_joined seed sl (t :: ts) j0 js Hj Hlt) in H.
    destruct (next_iter seed _) as [u|e'] eqn:Hpick; [discriminate|].
    apply next_iter_raise in Hpick. destruct Hpick as [_ Hinter].
    apply set_inter_nil_iff in Hinter. rewrite <- Hinter.
    symmetry. apply existsb_join_tables.
  - exfalso. apply Hsingle, from_block_single. right; right.
    apply Nat.ltb_ge in Hlt. exact Hlt.
Qed.

Lemma from_block_total (seed : nat) (sl : SemanticLayer) (tables : table_set) :
  (anchor_available sl tables = true -> exists block, from_block seed sl tables = Ok block)
  /\ (anchor_available sl tables = false -> from_block seed sl tables = Raise StopIteration).
Proof.
  unfold anchor_available.
  destruct tables as [|t ts].
  - split; [discriminate|]. intros _.
    rewrite from_block_single by (right; right; simpl; lia).
    now rewrite next_iter_nil.
  - assert (Hsingle :
      from_block seed sl (t :: ts) =
        (let* u := next_iter seed (t :: ts) in Ok ("FROM " ++ u ++ nl)) ->
      (true = true -> exists block, from_block seed sl (t :: ts) = Ok block)
      /\ (true = false -> from_block seed sl (t :: ts) = Raise StopIteration)).
    { intros Heq. split; [|discriminate]. intros _. rewrite Heq.
      destruct (next_iter_cons seed t ts) as [u [Hu _]]. rewrite Hu.
      cbn [bind]. eexists. reflexivity. }
    destruct (joins sl) as [[|j0 js]|] eqn:Hj;
      try (apply Hsingle, from_block_single; rewrite Hj; tauto).
    destruct (Nat.ltb 1 (List.length (t :: ts))) eqn:Hlt.
    + clear Hsingle. apply Nat.ltb_lt in Hlt.
      rewrite (from_block_joined seed sl (t :: ts) j0 js Hj Hlt).
      rewrite <- existsb_join_tables.
      destruct (set_inter (t :: ts) (join_tables (j0 :: js))) as [|u us] eqn:Hinter.
      * apply set_inter_nil_iff in Hinter. rewrite Hinter.
        split; [discriminate|]. intros _. now rewrite next_iter_nil.
      * assert (Hex : existsb (fun u => str_in u (join_tables (j0 :: js))) (t :: ts) = true).
        { destruct (existsb _ (t :: ts)) eqn:Hex; [reflexivity|].
          apply set_inter_nil_iff in Hex. congruence. }
        rewrite Hex. split; [|discriminate]. intros _.
        destruct (next_iter_cons seed u us) as [v [Hv _]]. rewrite Hv.
        cbn [bind]. eexists. reflexivity.
    + apply Hsingle, from_block_single. right; right.
      apply Nat.ltb_ge in Hlt. exact Hlt.
Qed.

Lemma oversized_filter_false_iff (query : Query) :
  oversized_filter query = false <->
  forall f n, In f (requested_filters query) -> f_value f = VInt n ->
              int_digits n <= int_max_str_digits.
Proof.
  unfold oversized_filter. generalize (requested_filters query) as fs.
  induction fs as [|f fs IH]; cbn [existsb].
  - split; [intros _ f n [] | reflexivity].
  - rewrite orb_false_iff, IH. split.
    + intros [Hf Hfs] g n [<-|Hg] Hv.
      * rewrite Hv in Hf. cbn [oversized] in Hf. now apply Nat.ltb_ge in Hf.
      * exact (Hfs g n Hg Hv).
    + intros H. split.
      * destruct (f_value f) as [s|n|r|b|] eqn:Hv; try reflexivity.
        cbn [oversized]. apply Nat.ltb_ge. exact (H f n (or_introl eq_refl) Hv).
      * intros g n Hg. apply H. now right.
Qed.

Lemma dimensions_unreadable_false_iff (query : Query) (sl : SemanticLayer) :
  dimensions_unreadable query sl = false <->
  (dimensions sl = None -> requested_dimensions query = []).
Proof.
  unfold dimensions_unreadable, requested_dimensions.
  destruct (q_dimensions query) as [[|n rest]|]; destruct (dimensions sl);
    split; intros H; try reflexivity; try discriminate.
  discriminate (H eq_refl).
Qed.

(** ** Declared names and lookups *)

Lemma lookup_metric_none_iff (n : string) (ms : list Metric) :
  lookup_metric n ms = None <-> forall m, In m ms -> m_name m <> n.
Proof.
  unfold lookup_metric. split.
  - intros H m Hm. apply String.eqb_neq. exact (find_none _ _ H m Hm).
  - intros H. apply find_absent. intros m Hm. apply String.eqb_neq. exact (H m Hm).
Qed.

Lemma lookup_metric_declared (n : string) (ms : list Metric) :
  (exists m, In m ms /\ m_name m = n) -> exists m, lookup_metric n ms = Some m.
Proof.
  intros [m [Hm Hn]]. destruct (lookup_metric n ms) as [m'|] eqn:Hl; [now exists m'|].
  exfalso. exact (proj1 (lookup_metric_none_iff n ms) Hl m Hm Hn).
Qed.

Lemma first_missing_metric_app (ms : list Metric) (before : list string) (n : string)
    (after : list string) :
  (forall k, In k before -> exists m, lookup_metric k ms = Some m) ->
  lookup_metric n ms = None ->
  first_missing_metric ms (before ++ n :: after) = Some n.
Proof.
  intros Hbefore Hn. unfold first_missing_metric. apply find_first.
  - now rewrite Hn.
  - intros k Hk. destruct (Hbefore k Hk) as [m Hm]. now rewrite Hm.
Qed.

Lemma first_missing_metric_all (ms : list Metric) (requested : list string) :
  (forall k, In k requested -> exists m, lookup_metric k ms = Some m) ->
  first_missing_metric ms requested = None.
Proof.
  intros Hall. unfold first_missing_metric. apply find_absent.
  intros k Hk. destruct (Hall k Hk) as [m Hm]. now rewrite Hm.
Qed.

(** * The claims of the specification *)

(** C1.  If some requested metric name is the name of no metric of the
    schema, [generate_sql] raises the metric-not-found [ValueError] and so
    returns no SQL; when every requested name is the name of a declared
    metric, no metric-not-found error is raised, for any name.  The name in
    the message is the first requested one that is not declared. *)
Theorem C1_metric_not_found (strptime_ok : string -> bool) (seed : nat)
    (query : Query) (sl : SemanticLayer) :
  ((exists n, In n (requested_metrics query)
              /\ forall m, In m (metrics sl) -> m_name m <> n) ->
   exists n, In n (requested_metrics query)
             /\ (forall m, In m (metrics sl) -> m_name m <> n)
             /\ generate_sql strptime_ok seed query sl =
                Raise (ValueError ("Metric " ++ n ++ " not found in semantic layer")))
  /\
  ((forall n, In n (requested_metrics query) ->
      exists m, In m (metrics sl) /\ m_name m = n) ->
   forall n, generate_sql strptime_ok seed query sl <>
             Raise (ValueError ("Metric " ++ n ++ " not found in semantic layer")))
  /\
  (forall before n after,
     requested_metrics query = (before ++ n :: after)%list ->
     (forall k, In k before -> exists m, In m (metrics sl) /\ m_name m = k) ->
     (forall m, In m (metrics sl) -> m_name m <> n) ->
     generate_sql strptime_ok seed query sl =
     Raise (ValueError ("Metric " ++ n ++ " not found in semantic layer"))).
Proof.
  rewrite generate_sql_eq. split; [|split].
  - intros [n [Hin Hn]].
    destruct (first_missing_metric (metrics sl) (requested_metrics query)) as [n'|] eqn:Hf.
    + destruct (first_missing_metric_some _ _ _ Hf) as [Hin' Hn'].
      exists n'. split; [exact Hin'|]. split; [|reflexivity].
      now apply lookup_metric_none_iff.
    + destruct (first_missing_metric_none _ _ Hf n Hin) as [m Hm].
      apply lookup_metric_none_iff in Hn. congruence.
  - intros Hall n.
    destruct (first_missing_metric (metrics sl) (requested_metrics query)) as [n'|] eqn:Hf.
    + destruct (first_missing_metric_some _ _ _ Hf) as [Hin' Hn'].
      destruct (lookup_metric_declared _ _ (Hall n' Hin')) as [m Hm]. congruence.
    + destruct (dimensions_unreadable query sl); [discriminate|].
      destruct (from_block seed sl (required_tables query sl)) as [block|e] eqn:Hb;
        cbn [bind].
      * destruct (oversized_filter query); discriminate.
      * apply from_block_raise in Hb. subst e. discriminate.
  - intros before n after Hreq Hbefore Hn. rewrite Hreq.
    rewrite first_missing_metric_app; [reflexivity | | now apply lookup_metric_none_iff].
    intros k Hk. apply lookup_metric_declared. exact (Hbefore k Hk).
Qed.

(** C1 at [semantic1], which declares [total_revenue] only. *)
Lemma C1_metric_not_found_witness :
  generate_sql strptime_Ymd 0
    (mkQuery (Some ["total_revenue"; "order_count"; "margin"]) None None) semantic1
  = Raise (ValueError "Metric order_count not found in semantic layer")
  /\ (forall n, generate_sql strptime_Ymd 0 query1 semantic1 <>
                Raise (ValueError ("Metric " ++ n ++ " not found in semantic layer")))
  /\ generate_sql strptime_Ymd 0 query1 semantic1
     = Ok ("SELECT SUM(sale_price) AS total_revenue" ++ nl ++ "FROM order_items").
Proof.
  split; [|split].
  - apply (proj2 (proj2 (C1_metric_not_found strptime_Ymd 0
                           (mkQuery (Some ["total_revenue"; "order_count"; "margin"]) None None)
                           semantic1))
             ["total_revenue"] "order_count" ["margin"]).
    + reflexivity.
    + intros k [<-|[]]. exists total_revenue. split; [left|]; reflexivity.
    + intros m [<-|[]]. discriminate.
  - apply (proj1 (proj2 (C1_metric_not_found strptime_Ymd 0 query1 semantic1))).
    intros n [<-|[]]. exists total_revenue. split; [left|]; reflexivity.
  - reflexivity.
Defined.



(** C3.  The requested name [signup__week__week] ends in [__week], and
    without that suffix it is [signup__week], a dimension of the schema with
    column [signup_week].  [generate_sql] looks up [signup] instead, because
    [replace] removes every [__week] of the name, and truncates the column
    [created_at]. *)
Theorem C3_week_suffix_removed_everywhere :
  endswith "signup__week__week" "__week" = true
  /\ "signup__week__week" = "signup__week" ++ "__week"
  /\ lookup_dimension "signup__week" (schema_dimensions semantic_week)
     = Some (mkDimension "signup__week" "signup_week" "users")
  /\ remove_all "__week" "signup__week__week" = "signup"
  /\ generate_sql strptime_Ymd 0 query_week semantic_week
     = Ok ("SELECT DATE_TRUNC(users.created_at, WEEK) AS signup__week__week, COUNT(*) AS user_count"
           ++ nl ++ "FROM users"
           ++ nl ++ "GROUP BY DATE_TRUNC(users.created_at, WEEK)").
Proof.
  repeat split.
Qed.

(** C4.  [semantic1] has no dimension list, so the requested dimension
    [status] is in no list of the schema; [generate_sql] raises a
    [TypeError] instead of leaving the dimension out. *)
Theorem C4_absent_dimension_list_raises :
  dimensions semantic1 = None
  /\ generate_sql strptime_Ymd 0
       (mkQuery (Some ["total_revenue"]) (Some ["status"]) None) semantic1
     = Raise (TypeError "'NoneType' object is not iterable")
  /\ generate_sql strptime_Ymd 0 query1 semantic1
     = Ok ("SELECT SUM(sale_price) AS total_revenue" ++ nl ++ "FROM order_items").
Proof.
  repeat split.
Qed.

(** C5.  When the schema declares joins and the required tables are more
    than one, the statement has [FROM <anchor>] for a required table that
    is an end of some join, followed by one line per declared join in
    declaration order, each as the specification words it; no test asks whether a
    join touches the anchor. *)
Theorem C5_join_plan (strptime_ok : string -> bool) (seed : nat)
    (query : Query) (sl : SemanticLayer) (j0 : Join) (js : list Join) (out : string) :
  joins sl = Some (j0 :: js) ->
  1 < List.length (required_tables query sl) ->
  generate_sql strptime_ok seed query sl = Ok out ->
  exists anchor,
    In anchor (required_tables query sl)
    /\ (exists j, In j (j0 :: js) /\ (j_one j = anchor \/ j_many j = anchor))
    /\ out = strip (statement strptime_ok query sl
               ("FROM " ++ anchor ++ nl
                ++ fold_right
                     (fun j rest => claimed_join_line anchor (required_tables query sl) j ++ rest)
                     "" (j0 :: js))).
Proof.
  intros Hj Hlen. rewrite generate_sql_eq.
  destruct (first_missing_metric _ _); [discriminate|].
  destruct (dimensions_unreadable query sl); [discriminate|].
  rewrite (from_block_joined seed sl _ j0 js Hj Hlen).
  destruct (next_iter seed _) as [anchor|e] eqn:Hpick; [|discriminate].
  cbn [bind]. destruct (oversized_filter query); [discriminate|].
  intros H. injection H as <-.
  apply next_iter_ok in Hpick. apply filter_In in Hpick. destruct Hpick as [Hin Hends].
  exists anchor. split; [exact Hin|]. split.
  - rewrite str_in_join_tables in Hends. apply orb_true_iff in Hends.
    destruct Hends as [H|H]; apply str_in_In, in_map_iff in H;
      destruct H as [j [Heq Hjin]]; exists j; tauto.
  - assert (Hlines : forall l,
      join_lines anchor (required_tables query sl) l =
      fold_right
        (fun j rest => claimed_join_line anchor (required_tables query sl) j ++ rest) "" l).
    { induction l as [|j l IH]; [reflexivity|].
      cbn [join_lines fold_right]. fold (join_lines anchor (required_tables query sl) l).
      now rewrite IH, join_line_claimed. }
    rewrite <- (Hlines (j0 :: js)). reflexivity.
Qed.

Lemma C5_join_plan_witness :
  exists anchor,
    In anchor ["order_items"; "orders"; "users"]
    /\ (exists j, In j [orders_join; mkJoin "users" "events" "events.user_id = users.id"]
                  /\ (j_one j = anchor \/ j_many j = anchor))
    /\ "SELECT orders.gender AS gender, users.country AS country, SUM(sale_price) AS total_revenue"
       ++ nl ++ "FROM order_items"
       ++ nl ++ "JOIN orders ON order_items.order_id = orders.order_id"
       ++ nl ++ "JOIN users ON events.user_id = users.id"
       ++ nl ++ "GROUP BY orders.gender, users.country"
       = strip (statement strptime_Ymd query_two_joins semantic_two_joins
                  ("FROM " ++ anchor ++ nl
                   ++ fold_right
                        (fun j rest =>
                           claimed_join_line anchor ["order_items"; "orders"; "users"] j ++ rest)
                        ""
                        [orders_join; mkJoin "users" "events" "events.user_id = users.id"])).
Proof.
  apply (C5_join_plan strptime_Ymd 0 query_two_joins semantic_two_joins
           orders_join [mkJoin "users" "events" "events.user_id = users.id"]).
  - reflexivity.
  - simpl. lia.
  - reflexivity.
Defined.

(** C6.  [get_qualified_field] looks among the dimensions first and then
    among the metrics, and returns [table.sql] of the first entry whose
    name is the field; when neither list has such an entry it returns the
    field as it was given. *)
Theorem C6_get_qualified_field (field : string) (sl : SemanticLayer) :
  (forall before d after,
     schema_dimensions sl = (before ++ d :: after)%list ->
     d_name d = field ->
     (forall d', In d' before -> d_name d' <> field) ->
     get_qualified_field field sl = d_table d ++ "." ++ d_sql d)
  /\
  (forall before m after,
     (forall d, In d (schema_dimensions sl) -> d_name d <> field) ->
     metrics sl = (before ++ m :: after)%list ->
     m_name m = field ->
     (forall m', In m' before -> m_name m' <> field) ->
     get_qualified_field field sl = m_table m ++ "." ++ m_sql m)
  /\
  ((forall d, In d (schema_dimensions sl) -> d_name d <> field) ->
   (forall m, In m (metrics sl) -> m_name m <> field) ->
   get_qualified_field field sl = field).
Proof.
  rewrite get_qualified_field_eq. repeat split.
  - intros before d after Hds Hname Hbefore.
    unfold lookup_dimension. rewrite Hds.
    rewrite (find_first _ before d after); [reflexivity | | ].
    + now apply String.eqb_eq.
    + intros d' Hd'. apply String.eqb_neq. now apply Hbefore.
  - intros before m after Hnodim Hms Hname Hbefore.
    unfold lookup_dimension. rewrite find_absent.
    2:{ intros d Hd. apply String.eqb_neq. now apply Hnodim. }
    unfold lookup_metric. rewrite Hms.
    rewrite (find_first _ before m after); [reflexivity | | ].
    + now apply String.eqb_eq.
    + intros m' Hm'. apply String.eqb_neq. now apply Hbefore.
  - intros Hnodim Hnomet.
    unfold lookup_dimension. rewrite find_absent.
    2:{ intros d Hd. apply String.eqb_neq. now apply Hnodim. }
    unfold lookup_metric. rewrite find_absent; [reflexivity|].
    intros m Hm. apply String.eqb_neq. now apply Hnomet.
Qed.

Lemma C6_get_qualified_field_witness :
  get_qualified_field "gender" semantic7 = "orders.gender"
  /\ get_qualified_field "total_revenue" semantic7 = "order_items.SUM(sale_price)"
  /\ get_qualified_field "users.age" semantic7 = "users.age".
Proof.
  destruct (C6_get_qualified_field "gender" semantic7) as [Hdim _].
  destruct (C6_get_qualified_field "total_revenue" semantic7) as [_ [Hmet _]].
  destruct (C6_get_qualified_field "users.age" semantic7) as [_ [_ Hnone]].
  split; [|split].
  - apply (Hdim [mkDimension "order_id" "order_id" "order_items"]
                (mkDimension "gender" "gender" "orders")
                [mkDimension "status" "status" "orders"]); [reflexivity | reflexivity |].
    intros d' [<-|[]]. discriminate.
  - apply (Hmet [] total_revenue []); [ | reflexivity | reflexivity | intros m' []].
    intros d [<-|[<-|[<-|[]]]]; discriminate.
  - apply Hnone.
    + intros d [<-|[<-|[<-|[]]]]; discriminate.
    + intros m [<-|[]]; discriminate.
Defined.

(** C7, counterexample.  The field [created] names a dimension of the
    schema and the value parses as a date, and the condition comes out as a
    bare comparison in HAVING, because the field is a requested metric
    too. *)
Lemma C7_counterexample :
  In "created" (map d_name (schema_dimensions semantic_created))
  /\ strptime_Ymd "2024-01-01" = true
  /\ generate_sql strptime_Ymd 0 query_created semantic_created
     = Ok ("SELECT MAX(created_at) AS created"
           ++ nl ++ "FROM orders"
           ++ nl ++ "HAVING created >= 2024-01-01").
Proof.
  split; [left; reflexivity|]. split; reflexivity.
Qed.

(** C7.  A filter whose field is not a requested metric, whose
    field names a dimension of the schema and whose value is a string that
    parses as a date is rendered in WHERE as
    [DATE(<qualified field>) <operator> DATE('<value>')], at its place among
    the WHERE conditions. *)
Theorem C7_date_filter (strptime_ok : string -> bool) (seed : nat)
    (query : Query) (sl : SemanticLayer) (before : list Filter) (f : Filter)
    (after : list Filter) (v : string) (out : string) :
  generate_sql strptime_ok seed query sl = Ok out ->
  requested_filters query = (before ++ f :: after)%list ->
  ~ In (f_field f) (requested_metrics query) ->
  In (f_field f) (map d_name (schema_dimensions sl)) ->
  f_value f = VStr v ->
  strptime_ok v = true ->
  exists block,
    from_block seed sl (required_tables query sl) = Ok block
    /\ out = strip (assemble (select_list query sl) block
               (where_conditions strptime_ok sl (requested_metrics query) before
                ++ ("DATE(" ++ get_qualified_field (f_field f) sl ++ ") " ++ f_operator f
                    ++ " DATE('" ++ v ++ "')")%string
                   :: where_conditions strptime_ok sl (requested_metrics query) after)%list
               (group_items (schema_dimensions sl) (requested_dimensions query))
               (having_conditions (requested_metrics query) (requested_filters query))).
Proof.
  intros Hout Hfs Hnot Hdim Hv Hdate.
  destruct (generate_sql_where_filter _ _ _ _ _ _ _ _ Hout Hfs Hnot) as [block [Hb ->]].
  exists block. split; [exact Hb|].
  unfold where_text, is_date_filter. rewrite Hv. cbn [is_str py_str andb].
  apply str_in_In in Hdim. unfold dimension_names. fold (schema_dimensions sl).
  now rewrite Hdim, Hdate.
Qed.

Lemma C7_date_filter_witness :
  exists block,
    from_block 0 semantic8 (required_tables query8 semantic8) = Ok block
    /\ "SELECT DATE_TRUNC(orders.created_at, WEEK) AS ordered_date__week, SUM(sale_price) AS total_revenue"
       ++ nl ++ "FROM order_items"
       ++ nl ++ "JOIN orders ON order_items.order_id = orders.order_id"
       ++ nl ++ "WHERE DATE(orders.created_at) >= DATE('2024-01-01')"
       ++ nl ++ "GROUP BY DATE_TRUNC(orders.created_at, WEEK)"
       = strip (assemble (select_list query8 semantic8) block
                  ["DATE(" ++ get_qualified_field "ordered_date" semantic8 ++ ") " ++ ">="
                   ++ " DATE('" ++ "2024-01-01" ++ "')"]
                  ["DATE_TRUNC(orders.created_at, WEEK)"] []).
Proof.
  apply (C7_date_filter strptime_Ymd 0 query8 semantic8 []
           (mkFilter "ordered_date" ">=" (VStr "2024-01-01")) [] "2024-01-01").
  - reflexivity.
  - reflexivity.
  - intros [H|[]]. discriminate H.
  - left. reflexivity.
  - reflexivity.
  - reflexivity.
Defined.

(** C8, counterexample, for the filters on a requested metric.  In
    [query6] the value is a number and the condition keeps the bare field
    [total_revenue], whose qualified form is [order_items.SUM(sale_price)];
    in [query_revenue_label] the value is a string and it is not quoted. *)
Lemma C8_counterexample :
  (is_date_filter strptime_Ymd semantic6 (mkFilter "total_revenue" ">" (VInt 1000)) = false
   /\ get_qualified_field "total_revenue" semantic6 = "order_items.SUM(sale_price)"
   /\ generate_sql strptime_Ymd 0 query6 semantic6
      = Ok ("SELECT order_items.order_id AS order_id, SUM(sale_price) AS total_revenue"
            ++ nl ++ "FROM order_items"
            ++ nl ++ "GROUP BY order_items.order_id"
            ++ nl ++ "HAVING total_revenue > 1000"))
  /\
  (is_date_filter strptime_Ymd semantic6 (mkFilter "total_revenue" "=" (VStr "high")) = false
   /\ is_int_or_float (VStr "high") = false
   /\ generate_sql strptime_Ymd 0 query_revenue_label semantic6
      = Ok ("SELECT order_items.order_id AS order_id, SUM(sale_price) AS total_revenue"
            ++ nl ++ "FROM order_items"
            ++ nl ++ "GROUP BY order_items.order_id"
            ++ nl ++ "HAVING total_revenue = high")).
Proof.
  repeat split.
Qed.

(** C8.  A filter whose field is not a requested metric and that
    the date rule does not match is rendered in WHERE: as
    [<qualified field> <operator> <value>] when the value is an [int] or a
    [float], and otherwise as [<qualified field> <operator> '<value>'], the
    text of the value going between the quotes as it is. *)
Theorem C8_plain_filter (strptime_ok : string -> bool) (seed : nat)
    (query : Query) (sl : SemanticLayer) (before : list Filter) (f : Filter)
    (after : list Filter) (out : string) :
  generate_sql strptime_ok seed query sl = Ok out ->
  requested_filters query = (before ++ f :: after)%list ->
  ~ In (f_field f) (requested_metrics query) ->
  is_date_filter strptime_ok sl f = false ->
  exists block,
    from_block seed sl (required_tables query sl) = Ok block
    /\ out = strip (assemble (select_list query sl) block
               (where_conditions strptime_ok sl (requested_metrics query) before
                ++ (if is_int_or_float (f_value f)
                    then get_qualified_field (f_field f) sl ++ " " ++ f_operator f
                         ++ " " ++ py_str (f_value f)
                    else get_qualified_field (f_field f) sl ++ " " ++ f_operator f
                         ++ " '" ++ py_str (f_value f) ++ "'")%string
                   :: where_conditions strptime_ok sl (requested_metrics query) after)%list
               (group_items (schema_dimensions sl) (requested_dimensions query))
               (having_conditions (requested_metrics query) (requested_filters query))).
Proof.
  intros Hout Hfs Hnot Hdate.
  destruct (generate_sql_where_filter _ _ _ _ _ _ _ _ Hout Hfs Hnot) as [block [Hb ->]].
  exists block. split; [exact Hb|].
  unfold where_text. now rewrite Hdate.
Qed.

Lemma C8_plain_filter_witness :
  (exists block,
     from_block 0 semantic5 (required_tables query_plain_filters semantic5) = Ok block
     /\ "SELECT COUNT(order_id) AS count_of_orders"
        ++ nl ++ "FROM orders"
        ++ nl ++ "WHERE num_of_item > 1 AND orders.status = 'Won't ship'"
        = strip (assemble (select_list query_plain_filters semantic5) block
                   ["num_of_item > 1"; "orders.status = 'Won't ship'"] [] []))
  /\
  (exists block,
     from_block 0 semantic5 (required_tables query_plain_filters semantic5) = Ok block
     /\ "SELECT COUNT(order_id) AS count_of_orders"
        ++ nl ++ "FROM orders"
        ++ nl ++ "WHERE num_of_item > 1 AND orders.status = 'Won't ship'"
        = strip (assemble (select_list query_plain_filters semantic5) block
                   ["num_of_item > 1"; "orders.status = 'Won't ship'"] [] [])).
Proof.
  split.
  - apply (C8_plain_filter strptime_Ymd 0 query_plain_filters semantic5 []
             (mkFilter "num_of_item" ">" (VInt 1))
             [mkFilter "status" "=" (VStr "Won't ship")]).
    + reflexivity.
    + reflexivity.
    + intros [H|[]]. discriminate H.
    + reflexivity.
  - apply (C8_plain_filter strptime_Ymd 0 query_plain_filters semantic5
             [mkFilter "num_of_item" ">" (VInt 1)]
             (mkFilter "status" "=" (VStr "Won't ship")) []).
    + reflexivity.
    + reflexivity.
    + intros [H|[]]. discriminate H.
    + reflexivity.
Defined.

(** C9.  The SELECT list of the returned SQL is the list of the items of
    the requested dimensions that resolve, in the order of the query's
    dimension list, followed by one item per requested metric, in the order
    of the query's metric list.  The schema only enters through the lookup
    of each name. *)
Theorem C9_select_order (strptime_ok : string -> bool) (seed : nat)
    (query : Query) (sl : SemanticLayer) (out : string) :
  generate_sql strptime_ok seed query sl = Ok out ->
  exists dimension_part metric_part rest,
    out = strip ("SELECT " ++ join_with ", " (dimension_part ++ metric_part)%list ++ nl ++ rest)
    /\ Forall2
         (fun n item => exists d, resolve_dimension (schema_dimensions sl) n = Some d
                                  /\ item = select_expr n d)
         (resolved_names (schema_dimensions sl) (requested_dimensions query))
         dimension_part
    /\ Forall2
         (fun n item => exists m, lookup_metric n (metrics sl) = Some m
                                  /\ item = m_sql m ++ " AS " ++ m_name m)
         (requested_metrics query) metric_part.
Proof.
  rewrite generate_sql_eq.
  destruct (first_missing_metric _ _) eqn:Hmiss; [discriminate|].
  destruct (dimensions_unreadable query sl); [discriminate|].
  destruct (from_block seed sl (required_tables query sl)) as [block|e]; [|discriminate].
  cbn [bind]. destruct (oversized_filter query); [discriminate|].
  intros H. injection H as <-.
  exists (dimension_items (schema_dimensions sl) (requested_dimensions query)),
    (metric_items (metrics sl) (requested_metrics query)).
  eexists. split; [|split].
  - unfold statement, assemble, select_list. reflexivity.
  - apply dimension_items_resolved.
  - now apply metric_items_resolved.
Qed.

Lemma C9_select_order_witness :
  exists dimension_part metric_part rest,
    "SELECT order_items.order_id AS order_id, orders.gender AS gender, orders.status AS status, SUM(sale_price) AS total_revenue"
    ++ nl ++ "FROM order_items"
    ++ nl ++ "JOIN orders ON order_items.order_id = orders.order_id"
    ++ nl ++ "GROUP BY order_items.order_id, orders.gender, orders.status"
    ++ nl ++ "HAVING total_revenue > 1000"
    = strip ("SELECT " ++ join_with ", " (dimension_part ++ metric_part)%list ++ nl ++ rest)
    /\ Forall2
         (fun n item => exists d, resolve_dimension (schema_dimensions semantic7) n = Some d
                                  /\ item = select_expr n d)
         ["order_id"; "gender"; "status"] dimension_part
    /\ Forall2
         (fun n item => exists m, lookup_metric n (metrics semantic7) = Some m
                                  /\ item = m_sql m ++ " AS " ++ m_name m)
         ["total_revenue"] metric_part.
Proof.
  exact (C9_select_order strptime_Ymd 0 query7 semantic7 _ eq_refl).
Defined.

(** C10.  Take a query whose requested metrics are all declared and
    whose dimension loop can run.  Outside the precondition the choice of
    the FROM table raises [StopIteration], which is neither a string nor the
    compiler's own [ValueError]; so a string is returned only under the
    precondition.  Under it a string is returned, unless a filter holds an
    [int] too long for [str()], which is a [ValueError] of the filter loop
    and not of the FROM step. *)
Theorem C10_total_under_precondition (strptime_ok : string -> bool) (seed : nat)
    (query : Query) (sl : SemanticLayer) :
  (forall n, In n (requested_metrics query) ->
     exists m, In m (metrics sl) /\ m_name m = n) ->
  (dimensions sl = None -> requested_dimensions query = []) ->
  (anchor_available sl (required_tables query sl) = false ->
   generate_sql strptime_ok seed query sl = Raise StopIteration)
  /\
  (forall out, generate_sql strptime_ok seed query sl = Ok out ->
   anchor_available sl (required_tables query sl) = true)
  /\
  (anchor_available sl (required_tables query sl) = true ->
   (forall f n, In f (requested_filters query) -> f_value f = VInt n ->
                int_digits n <= int_max_str_digits) ->
   exists out, generate_sql strptime_ok seed query sl = Ok out).
Proof.
  intros Hall Hdims. rewrite generate_sql_eq.
  rewrite first_missing_metric_all
    by (intros k Hk; apply lookup_metric_declared; exact (Hall k Hk)).
  apply dimensions_unreadable_false_iff in Hdims. rewrite Hdims.
  destruct (from_block_total seed sl (required_tables query sl)) as [Hyes Hno].
  split; [|split].
  - intros Hav. now rewrite (Hno Hav).
  - intros out.
    destruct (anchor_available sl (required_tables query sl)); [reflexivity|].
    now rewrite (Hno eq_refl).
  - intros Hav Hfit. destruct (Hyes Hav) as [block Hblock]. rewrite Hblock. cbn [bind].
    apply oversized_filter_false_iff in Hfit. rewrite Hfit. eexists. reflexivity.
Qed.

Lemma C10_total_under_precondition_witness :
  generate_sql strptime_Ymd 0 (mkQuery (Some []) None None) semantic1 = Raise StopIteration
  /\ generate_sql strptime_Ymd 0
       (mkQuery (Some ["total_revenue"]) (Some ["country"]) None) semantic_unreached
     = Raise StopIteration
  /\ exists out, generate_sql strptime_Ymd 0 query7 semantic7 = Ok out.
Proof.
  split; [|split].
  - apply (C10_total_under_precondition strptime_Ymd 0
             (mkQuery (Some []) None None) semantic1).
    + intros n [].
    + reflexivity.
    + reflexivity.
  - apply (C10_total_under_precondition strptime_Ymd 0
             (mkQuery (Some ["total_revenue"]) (Some ["country"]) None) semantic_unreached).
    + intros n [<-|[]]. exists total_revenue. split; [left|]; reflexivity.
    + discriminate.
    + reflexivity.
  - apply (C10_total_under_precondition strptime_Ymd 0 query7 semantic7).
    + intros n [<-|[]]. exists total_revenue. split; [left|]; reflexivity.
    + discriminate.
    + reflexivity.
    + intros f n [<-|[]] H. injection H as <-. apply Nat.leb_le. reflexivity.
Defined.

(** * Further properties *)

(** ** The set of required tables *)

Lemma In_set_add (x y : string) (s : table_set) :
  In y (set_add x s) <-> y = x \/ In y s.
Proof.
  rewrite <- !str_in_In, str_in_set_add, orb_true_iff, String.eqb_eq. tauto.
Qed.

Lemma set_add_NoDup (x : string) (s : table_set) :
  NoDup s -> NoDup (set_add x s).
Proof.
  intros Hs. unfold set_add. destruct (str_in x s) eqn:Hx; [exact Hs|].
  apply NoDup_app; [exact Hs | repeat constructor; intros [] | ].
  intros y Hy [<-|[]]. apply str_in_In in Hy. congruence.
Qed.

Lemma metric_tables_NoDup (ms : list Metric) (requested : list string) :
  forall tables, NoDup tables -> NoDup (metric_tables ms requested tables).
Proof.
  unfold metric_tables. induction requested as [|n rest IH]; intros tables Ht; simpl.
  - exact Ht.
  - apply IH. destruct (lookup_metric n ms); [now apply set_add_NoDup | exact Ht].
Qed.

Lemma dimension_tables_NoDup (ds : list Dimension) (names : list string) :
  forall tables, NoDup tables -> NoDup (dimension_tables ds names tables).
Proof.
  unfold dimension_tables. induction names as [|n rest IH]; intros tables Ht; simpl.
  - exact Ht.
  - apply IH. destruct (resolve_dimension ds n); [now apply set_add_NoDup | exact Ht].
Qed.

Lemma In_metric_tables (ms : list Metric) (requested : list string) (t : string) :
  forall tables,
    In t (metric_tables ms requested tables) <->
    In t tables \/
    exists n m, In n requested /\ lookup_metric n ms = Some m /\ m_table m = t.
Proof.
  unfold metric_tables. induction requested as [|n rest IH]; intros tables; simpl.
  - split; [tauto|]. intros [H|[n [m [[] _]]]]. exact H.
  - rewrite IH. destruct (lookup_metric n ms) as [m|] eqn:Hm.
    + rewrite In_set_add. split.
      * intros [[->|H]|[n' [m' [Hin H]]]]; [right | tauto | right].
        -- exists n, m. tauto.
        -- exists n', m'. tauto.
      * intros [H|[n' [m' [[<-|Hin] [Hl Ht]]]]]; [tauto | | right; now exists n', m'].
        left. left. congruence.
    + split.
      * intros [H|[n' [m' [Hin H]]]]; [tauto | right; exists n', m'; tauto].
      * intros [H|[n' [m' [[<-|Hin] [Hl Ht]]]]]; [tauto | congruence | right; now exists n', m'].
Qed.

Lemma In_dimension_tables (ds : list Dimension) (names : list string) (t : string) :
  forall tables,
    In t (dimension_tables ds names tables) <->
    In t tables \/
    exists n d, In n names /\ resolve_dimension ds n = Some d /\ d_table d = t.
Proof.
  unfold dimension_tables. induction names as [|n rest IH]; intros tables; simpl.
  - split; [tauto|]. intros [H|[n [d [[] _]]]]. exact H.
  - rewrite IH. destruct (resolve_dimension ds n) as [d|] eqn:Hd.
    + rewrite In_set_add. split.
      * intros [[->|H]|[n' [d' [Hin H]]]]; [right | tauto | right].
        -- exists n, d. tauto.
        -- exists n', d'. tauto.
      * intros [H|[n' [d' [[<-|Hin] [Hl Ht]]]]]; [tauto | | right; now exists n', d'].
        left. left. congruence.
    + split.
      * intros [H|[n' [d' [Hin H]]]]; [tauto | right; exists n', d'; tauto].
      * intros [H|[n' [d' [[<-|Hin] [Hl Ht]]]]]; [tauto | congruence | right; now exists n', d'].
Qed.

(** X1.  The table set that the two loops of lines 83-105 build holds each
    table once, so its length is the [len] of the Python set; and a table
    is in it exactly when a requested metric, or a requested dimension that
    resolves, lives in that table. *)
Theorem required_tables_spec (ms : list Metric) (sl : SemanticLayer)
    (requested names parts1 parts2 : list string) (tables1 tables2 : table_set) :
  build_metric_parts ms requested [] [] = Ok (parts1, tables1) ->
  build_dimension_parts sl names [] tables1 = Ok (parts2, tables2) ->
  NoDup tables2
  /\ forall t,
       In t tables2 <->
       (exists n m, In n requested /\ lookup_metric n ms = Some m /\ m_table m = t)
       \/ (exists n d, In n names
                       /\ resolve_dimension (schema_dimensions sl) n = Some d
                       /\ d_table d = t).
Proof.
  rewrite build_metric_parts_spec.
  destruct (first_missing_metric ms requested); [discriminate|].
  intros H1. injection H1 as <- <-.
  unfold schema_dimensions.
  destruct (dimensions sl) as [ds|] eqn:Hds.
  - rewrite (build_dimension_parts_spec sl ds Hds).
    intros H2. injection H2 as <- <-. split.
    + apply dimension_tables_NoDup, metric_tables_NoDup. constructor.
    + intros t. rewrite In_dimension_tables, In_metric_tables. simpl. tauto.
  - destruct names as [|n rest].
    + simpl. intros H2. injection H2 as <- <-. split.
      * apply metric_tables_NoDup. constructor.
      * intros t. rewrite In_metric_tables. simpl. split.
        -- intros [[]|H]. now left.
        -- intros [H|[n [d [[] _]]]]. now right.
    + now rewrite build_dimension_parts_none.
Qed.

Lemma required_tables_spec_witness :
  NoDup ["order_items"; "orders"]
  /\ forall t,
       In t ["order_items"; "orders"] <->
       (exists n m, In n ["total_revenue"]
                    /\ lookup_metric n [total_revenue] = Some m /\ m_table m = t)
       \/ (exists n d, In n ["order_id"; "gender"; "status"]
                       /\ resolve_dimension (schema_dimensions semantic7) n = Some d
                       /\ d_table d = t).
Proof.
  exact (required_tables_spec [total_revenue] semantic7 ["total_revenue"]
           ["order_id"; "gender"; "status"] _ _ _ _ eq_refl eq_refl).
Defined.

(** ** Dimensions that do not resolve *)

Lemma dimension_items_skip (ds : list Dimension) (before : list string) (n : string)
    (after : list string) :
  resolve_dimension ds n = None ->
  dimension_items ds (before ++ n :: after) = dimension_items ds (before ++ after).
Proof.
  intros Hn. unfold dimension_items. rewrite !flat_map_app. simpl. now rewrite Hn.
Qed.

Lemma group_items_skip (ds : list Dimension) (before : list string) (n : string)
    (after : list string) :
  resolve_dimension ds n = None ->
  group_items ds (before ++ n :: after) = group_items ds (before ++ after).
Proof.
  intros Hn. unfold group_items. rewrite !flat_map_app. simpl. now rewrite Hn.
Qed.

Lemma dimension_tables_skip (ds : list Dimension) (before : list string) (n : string)
    (after : list string) (tables : table_set) :
  resolve_dimension ds n = None ->
  dimension_tables ds (before ++ n :: after) tables =
  dimension_tables ds (before ++ after) tables.
Proof.
  intros Hn. unfold dimension_tables. rewrite !fold_left_app. simpl. now rewrite Hn.
Qed.

(** X2.  When the schema has a dimension list, a requested dimension that
    does not resolve in it changes nothing: [generate_sql] gives the same
    result, string or exception, as for the query without that name. *)
Theorem unresolved_dimension_is_dropped (strptime_ok : string -> bool) (seed : nat)
    (sl : SemanticLayer) (ds : list Dimension)
    (ms : option (list string)) (fs : option (list Filter))
    (before : list string) (n : string) (after : list string) :
  dimensions sl = Some ds ->
  resolve_dimension ds n = None ->
  generate_sql strptime_ok seed (mkQuery ms (Some (before ++ n :: after)%list) fs) sl =
  generate_sql strptime_ok seed (mkQuery ms (Some (before ++ after)%list) fs) sl.
Proof.
  intros Hds Hn. rewrite !generate_sql_eq.
  unfold dimensions_unreadable, required_tables, statement, select_list,
    requested_dimensions, requested_metrics, requested_filters, schema_dimensions.
  cbn [q_metrics q_dimensions q_filters]. rewrite Hds.
  rewrite (dimension_items_skip ds before n after Hn).
  rewrite (group_items_skip ds before n after Hn).
  rewrite (dimension_tables_skip ds before n after _ Hn).
  destruct (first_missing_metric _ _); [reflexivity|].
  destruct (before ++ n :: after)%list; destruct (before ++ after)%list; reflexivity.
Qed.

Lemma unresolved_dimension_is_dropped_witness :
  generate_sql strptime_Ymd 0
    (mkQuery (Some ["total_revenue"]) (Some ["order_id"; "colour"; "colour__week"; "status"]) None)
    semantic7
  = Ok ("SELECT order_items.order_id AS order_id, orders.status AS status, SUM(sale_price) AS total_revenue"
        ++ nl ++ "FROM order_items"
        ++ nl ++ "JOIN orders ON order_items.order_id = orders.order_id"
        ++ nl ++ "GROUP BY order_items.order_id, orders.status").
Proof.
  refine (eq_trans
            (unresolved_dimension_is_dropped strptime_Ymd 0 semantic7
               (schema_dimensions semantic7) (Some ["total_revenue"]) None
               ["order_id"] "colour" ["colour__week"; "status"] eq_refl eq_refl) _).
  refine (eq_trans
            (unresolved_dimension_is_dropped strptime_Ymd 0 semantic7
               (schema_dimensions semantic7) (Some ["total_revenue"]) None
               ["order_id"] "colour__week" ["status"] eq_refl eq_refl) _).
  reflexivity.
Defined.

(** ** The week grain *)

Lemma substring_all (s : string) : substring 0 (String.length s) s = s.
Proof.
  induction s as [|c s IH]; simpl; [reflexivity | now rewrite IH].
Qed.

Lemma substring_skip (a b : string) (k : nat) :
  substring (String.length a) k (a ++ b) = substring 0 k b.
Proof.
  induction a as [|c a IH]; simpl; [reflexivity | exact IH].
Qed.

Lemma string_length_app (a b : string) :
  String.length (a ++ b) = String.length a + String.length b.
Proof.
  induction a as [|c a IH]; simpl; [reflexivity | now rewrite IH].
Qed.

(** [endswith] is the suffix test. *)
Lemma endswith_app (base suffix : string) : endswith (base ++ suffix) suffix = true.
Proof.
  unfold endswith. rewrite string_length_app.
  replace (String.length base + String.length suffix - String.length suffix)
    with (String.length base) by lia.
  rewrite substring_skip, substring_all, String.eqb_refl.
  rewrite andb_true_r. apply Nat.leb_le. lia.
Qed.

Lemma remove_all_week_suffix (base : string) :
  week_only_at_end base = true ->
  remove_all "__week" (base ++ "__week") = base.
Proof.
  unfold remove_all. induction base as [|c rest IH]; intros H.
  - reflexivity.
  - cbn [week_only_at_end] in H. apply andb_true_iff in H. destruct H as [Hhere Hrest].
    apply negb_true_iff in Hhere.
    change ((String c rest) ++ "__week") with (String c (rest ++ "__week")) in *.
    cbn [remove_all_from]. rewrite Hhere. now rewrite (IH Hrest).
Qed.

(** X3.  For a requested name [base ++ "__week"] in which [__week] occurs
    only as the suffix, and whose [base] is a dimension [d] of the schema,
    the SELECT list has [DATE_TRUNC(<table>.<sql>, WEEK) AS <name>] and the
    GROUP BY list has [DATE_TRUNC(<table>.<sql>, WEEK)], each at the place
    of the name among the requested dimensions. *)
Theorem week_grain_select_and_group (strptime_ok : string -> bool) (seed : nat)
    (query : Query) (sl : SemanticLayer) (before : list string) (base : string)
    (after : list string) (d : Dimension) (out : string) :
  generate_sql strptime_ok seed query sl = Ok out ->
  requested_dimensions query = (before ++ (base ++ "__week")%string :: after)%list ->
  week_only_at_end base = true ->
  lookup_dimension base (schema_dimensions sl) = Some d ->
  exists block,
    from_block seed sl (required_tables query sl) = Ok block
    /\ out = strip (assemble
               (dimension_items (schema_dimensions sl) before
                ++ ("DATE_TRUNC(" ++ d_table d ++ "." ++ d_sql d ++ ", WEEK) AS "
                    ++ base ++ "__week")%string
                   :: dimension_items (schema_dimensions sl) after
                ++ metric_items (metrics sl) (requested_metrics query))%list
               block
               (where_conditions strptime_ok sl (requested_metrics query)
                  (requested_filters query))
               (group_items (schema_dimensions sl) before
                ++ ("DATE_TRUNC(" ++ d_table d ++ "." ++ d_sql d ++ ", WEEK)")%string
                   :: group_items (schema_dimensions sl) after)%list
               (having_conditions (requested_metrics query) (requested_filters query))).
Proof.
  rewrite generate_sql_eq.
  destruct (first_missing_metric _ _); [discriminate|].
  destruct (dimensions_unreadable query sl); [discriminate|].
  destruct (from_block seed sl (required_tables query sl)) as [block|e]; [|discriminate].
  cbn [bind]. destruct (oversized_filter query); [discriminate|].
  intros H Hnames Honly Hd. injection H as <-.
  exists block. split; [reflexivity|].
  unfold statement, select_list. rewrite Hnames.
  unfold dimension_items, group_items. rewrite !flat_map_app. cbn [flat_map].
  unfold resolve_dimension, select_expr, group_expr.
  rewrite endswith_app, (remove_all_week_suffix base Honly), Hd.
  cbn [app]. now rewrite <- !app_assoc.
Qed.

Lemma week_grain_select_and_group_witness :
  exists block,
    from_block 0 semantic8 (required_tables query8 semantic8) = Ok block
    /\ "SELECT DATE_TRUNC(orders.created_at, WEEK) AS ordered_date__week, SUM(sale_price) AS total_revenue"
       ++ nl ++ "FROM order_items"
       ++ nl ++ "JOIN orders ON order_items.order_id = orders.order_id"
       ++ nl ++ "WHERE DATE(orders.created_at) >= DATE('2024-01-01')"
       ++ nl ++ "GROUP BY DATE_TRUNC(orders.created_at, WEEK)"
       = strip (assemble
                  ["DATE_TRUNC(orders.created_at, WEEK) AS ordered_date__week";
                   "SUM(sale_price) AS total_revenue"]
                  block
                  ["DATE(orders.created_at) >= DATE('2024-01-01')"]
                  ["DATE_TRUNC(orders.created_at, WEEK)"]
                  []).
Proof.
  exact (week_grain_select_and_group strptime_Ymd 0 query8 semantic8 [] "ordered_date" []
           (mkDimension "ordered_date" "created_at" "orders") _
           eq_refl eq_refl eq_refl eq_refl).
Defined.

(** ** SELECT and GROUP BY *)

Lemma select_expr_group_expr (n : string) (d : Dimension) :
  select_expr n d = group_expr n d ++ " AS " ++ n.
Proof.
  unfold select_expr, group_expr. destruct (endswith n "__week");
    now rewrite !string_app_assoc.
Qed.

Lemma group_items_select_items (ds : list Dimension) (names : list string) :
  Forall2 (fun n pair => fst pair = snd pair ++ " AS " ++ n)
    (resolved_names ds names)
    (combine (dimension_items ds names) (group_items ds names))
  /\ List.length (dimension_items ds names) = List.length (group_items ds names).
Proof.
  unfold resolved_names, dimension_items, group_items.
  induction names as [|n names [IH1 IH2]]; simpl; [split; [constructor | reflexivity]|].
  destruct (resolve_dimension ds n) as [d|]; simpl; [|now split].
  split; [|now rewrite IH2].
  constructor; [apply select_expr_group_expr | exact IH1].
Qed.

(** X4.  The GROUP BY list goes with the dimension part of the SELECT list
    item by item: each SELECT item is its GROUP BY expression followed by
    [AS] and the requested name, so the statement groups by every selected
    dimension and by nothing else. *)
Theorem group_by_matches_select (strptime_ok : string -> bool) (seed : nat)
    (query : Query) (sl : SemanticLayer) (out : string) :
  generate_sql strptime_ok seed query sl = Ok out ->
  exists dimension_part group_parts block,
    out = strip (assemble
                   (dimension_part ++ metric_items (metrics sl) (requested_metrics query))%list
                   block
                   (where_conditions strptime_ok sl (requested_metrics query)
                      (requested_filters query))
                   group_parts
                   (having_conditions (requested_metrics query) (requested_filters query)))
    /\ List.length dimension_part = List.length group_parts
    /\ Forall2 (fun n pair => fst pair = snd pair ++ " AS " ++ n)
         (resolved_names (schema_dimensions sl) (requested_dimensions query))
         (combine dimension_part group_parts).
Proof.
  rewrite generate_sql_eq.
  destruct (first_missing_metric _ _); [discriminate|].
  destruct (dimensions_unreadable query sl); [discriminate|].
  destruct (from_block seed sl (required_tables query sl)) as [block|e]; [|discriminate].
  cbn [bind]. destruct (oversized_filter query); [discriminate|].
  intros H. injection H as <-.
  exists (dimension_items (schema_dimensions sl) (requested_dimensions query)),
    (group_items (schema_dimensions sl) (requested_dimensions query)), block.
  destruct (group_items_select_items (schema_dimensions sl) (requested_dimensions query))
    as [Hpairs Hlen].
  split; [reflexivity|]. split; assumption.
Qed.

Lemma group_by_matches_select_witness :
  exists dimension_part group_parts block,
    "SELECT order_items.order_id AS order_id, orders.gender AS gender, orders.status AS status, SUM(sale_price) AS total_revenue"
    ++ nl ++ "FROM order_items"
    ++ nl ++ "JOIN orders ON order_items.order_id = orders.order_id"
    ++ nl ++ "GROUP BY order_items.order_id, orders.gender, orders.status"
    ++ nl ++ "HAVING total_revenue > 1000"
    = strip (assemble (dimension_part ++ ["SUM(sale_price) AS total_revenue"])%list
               block [] group_parts ["total_revenue > 1000"])
    /\ List.length dimension_part = List.length group_parts
    /\ Forall2 (fun n pair => fst pair = snd pair ++ " AS " ++ n)
         ["order_id"; "gender"; "status"]
         (combine dimension_part group_parts).
Proof.
  exact (group_by_matches_select strptime_Ymd 0 query7 semantic7 _ eq_refl).
Defined.

(** ** The exceptions of [generate_sql] *)

Lemma oversized_filter_true (query : Query) :
  oversized_filter query = true ->
  exists f n, In f (requested_filters query) /\ f_value f = VInt n
              /\ int_max_str_digits < int_digits n.
Proof.
  unfold oversized_filter. intros H. apply existsb_exists in H.
  destruct H as [f [Hf Hover]].
  destruct (f_value f) as [s|n|r|b|] eqn:Hv; try discriminate.
  exists f, n. repeat split; try assumption. now apply Nat.ltb_lt in Hover.
Qed.

(** X5.  On a query whose filters each have a field, an operator and a
    value, [generate_sql] raises in four ways only: the [ValueError] of
    line 86 for a requested metric that the schema does not declare; a
    [TypeError] when the query names a dimension and the schema has no
    dimension list; [StopIteration] when no FROM table can be picked; and
    the [ValueError] of [str()] when a filter value is an [int] of more
    than 4300 digits.  In particular the unguarded [query['dimensions']] of
    line 166 never raises [KeyError]. *)
Theorem generate_sql_exceptions (strptime_ok : string -> bool) (seed : nat)
    (query : Query) (sl : SemanticLayer) (e : exn) :
  generate_sql strptime_ok seed query sl = Raise e ->
  (exists n, In n (requested_metrics query)
             /\ (forall m, In m (metrics sl) -> m_name m <> n)
             /\ e = ValueError ("Metric " ++ n ++ " not found in semantic layer"))
  \/ (e = TypeError "'NoneType' object is not iterable"
      /\ dimensions sl = None
      /\ exists n rest, q_dimensions query = Some (n :: rest))
  \/ (e = StopIteration
      /\ anchor_available sl (required_tables query sl) = false)
  \/ (e = ValueError "Exceeds the limit (4300 digits) for integer string conversion; use sys.set_int_max_str_digits() to increase the limit"
      /\ exists f n, In f (requested_filters query) /\ f_value f = VInt n
                     /\ int_max_str_digits < int_digits n).
Proof.
  rewrite generate_sql_eq.
  destruct (first_missing_metric _ _) as [n|] eqn:Hmiss.
  - intros H. injection H as <-. left.
    destruct (first_missing_metric_some _ _ _ Hmiss) as [Hin Hn].
    exists n. split; [exact Hin|]. split; [|reflexivity].
    now apply lookup_metric_none_iff.
  - destruct (dimensions_unreadable query sl) eqn:Hread.
    + intros H. injection H as <-. right. left.
      unfold dimensions_unreadable in Hread.
      destruct (q_dimensions query) as [[|n rest]|]; try discriminate.
      destruct (dimensions sl); [discriminate|].
      repeat split. now exists n, rest.
    + destruct (from_block seed sl (required_tables query sl)) as [block|e'] eqn:Hb;
        cbn [bind].
      * destruct (oversized_filter query) eqn:Hover; [|discriminate].
        intros H. injection H as <-. right. right. right.
        split; [reflexivity | exact (oversized_filter_true query Hover)].
      * intros H. injection H as <-. right. right. left.
        split; [exact (from_block_raise _ _ _ _ Hb)
               | exact (from_block_raise_unavailable _ _ _ _ Hb)].
Qed.

Lemma generate_sql_exceptions_witness :
  (exists n, In n ["order_count"]
             /\ (forall m, In m (metrics semantic1) -> m_name m <> n)
             /\ ValueError "Metric order_count not found in semantic layer"
                = ValueError ("Metric " ++ n ++ " not found in semantic layer"))
  \/ (ValueError "Metric order_count not found in semantic layer"
      = TypeError "'NoneType' object is not iterable"
      /\ dimensions semantic1 = None
      /\ exists n rest, @None (list string) = Some (n :: rest))
  \/ (ValueError "Metric order_count not found in semantic layer" = StopIteration
      /\ anchor_available semantic1
           (required_tables (mkQuery (Some ["order_count"]) None None) semantic1) = false)
  \/ (ValueError "Metric order_count not found in semantic layer"
      = ValueError "Exceeds the limit (4300 digits) for integer string conversion; use sys.set_int_max_str_digits() to increase the limit"
      /\ exists f n, In f (@nil Filter) /\ f_value f = VInt n
                     /\ int_max_str_digits < int_digits n).
Proof.
  exact (generate_sql_exceptions strptime_Ymd 0
           (mkQuery (Some ["order_count"]) None None) semantic1 _ eq_refl).
Defined.

(** ** Which exception comes first *)

(** X6.  The metric check comes before everything else and stops at the
    first requested name that the schema lacks: that name is the one in the
    message, whatever the dimensions, joins and filters are.  When all the
    metrics resolve, a query with a non-empty dimension list against a
    schema without a dimension list raises the [TypeError], before any FROM
    table is looked for. *)
Theorem exception_order (strptime_ok : string -> bool) (seed : nat)
    (query : Query) (sl : SemanticLayer) :
  (forall before n after,
     requested_metrics query = (before ++ n :: after)%list ->
     (forall k, In k before -> exists m, lookup_metric k (metrics sl) = Some m) ->
     lookup_metric n (metrics sl) = None ->
     generate_sql strptime_ok seed query sl =
     Raise (ValueError ("Metric " ++ n ++ " not found in semantic layer")))
  /\
  (forall n rest,
     (forall k, In k (requested_metrics query) ->
        exists m, lookup_metric k (metrics sl) = Some m) ->
     dimensions sl = None ->
     q_dimensions query = Some (n :: rest) ->
     generate_sql strptime_ok seed query sl =
     Raise (TypeError "'NoneType' object is not iterable")).
Proof.
  rewrite generate_sql_eq. split.
  - intros before n after Hreq Hbefore Hn.
    now rewrite Hreq, (first_missing_metric_app _ _ _ _ Hbefore Hn).
  - intros n rest Hall Hnone Hq.
    rewrite (first_missing_metric_all _ _ Hall).
    unfold dimensions_unreadable. now rewrite Hq, Hnone.
Qed.

Lemma exception_order_witness :
  generate_sql strptime_Ymd 0
    (mkQuery (Some ["total_revenue"; "margin"; "order_count"]) (Some ["status"]) None)
    semantic1
  = Raise (ValueError ("Metric " ++ "margin" ++ " not found in semantic layer"))
  /\ generate_sql strptime_Ymd 0
       (mkQuery (Some ["total_revenue"]) (Some ["status"]) None) semantic1
     = Raise (TypeError "'NoneType' object is not iterable").
Proof.
  split.
  - apply (proj1 (exception_order strptime_Ymd 0
                    (mkQuery (Some ["total_revenue"; "margin"; "order_count"])
                       (Some ["status"]) None) semantic1)
             ["total_revenue"] "margin" ["order_count"]).
    + reflexivity.
    + intros k [<-|[]]. exists total_revenue. reflexivity.
    + reflexivity.
  - apply (proj2 (exception_order strptime_Ymd 0
                    (mkQuery (Some ["total_revenue"]) (Some ["status"]) None) semantic1)
             "status" []).
    + intros k [<-|[]]. exists total_revenue. reflexivity.
    + reflexivity.
    + reflexivity.
Defined.

(** ** An [int] too long for [str()] *)

(** X15.  When the requested metrics are declared, the dimension loop can
    run and a FROM table can be picked, a filter whose value is an [int] of
    more than 4300 digits makes [generate_sql] raise the [ValueError] of
    the conversion of the [int] to text, from the f-string of line 138 or
    of line 155; no statement is returned. *)
Theorem oversized_filter_raises (strptime_ok : string -> bool) (seed : nat)
    (query : Query) (sl : SemanticLayer) :
  (forall n, In n (requested_metrics query) ->
     exists m, In m (metrics sl) /\ m_name m = n) ->
  (dimensions sl = None -> requested_dimensions query = []) ->
  anchor_available sl (required_tables query sl) = true ->
  (exists f n, In f (requested_filters query) /\ f_value f = VInt n
               /\ int_max_str_digits < int_digits n) ->
  generate_sql strptime_ok seed query sl =
  Raise (ValueError "Exceeds the limit (4300 digits) for integer string conversion; use sys.set_int_max_str_digits() to increase the limit").
Proof.
  intros Hall Hdims Hav [f [n [Hf [Hv Hlong]]]]. rewrite generate_sql_eq.
  rewrite first_missing_metric_all
    by (intros k Hk; apply lookup_metric_declared; exact (Hall k Hk)).
  apply dimensions_unreadable_false_iff in Hdims. rewrite Hdims.
  destruct (proj1 (from_block_total seed sl (required_tables query sl)) Hav)
    as [block Hblock].
  rewrite Hblock. cbn [bind].
  destruct (oversized_filter query) eqn:Hover; [reflexivity|].
  pose proof (proj1 (oversized_filter_false_iff query) Hover f n Hf Hv). lia.
Qed.

Lemma oversized_filter_raises_witness :
  generate_sql strptime_Ymd 0 query_huge semantic6 =
  Raise (ValueError "Exceeds the limit (4300 digits) for integer string conversion; use sys.set_int_max_str_digits() to increase the limit").
Proof.
  apply (oversized_filter_raises strptime_Ymd 0 query_huge semantic6).
  - intros n [<-|[]]. exists total_revenue. split; [left|]; reflexivity.
  - discriminate.
  - reflexivity.
  - exists (mkFilter "total_revenue" ">" (VInt (10 ^ 4300))), (10 ^ 4300)%Z.
    split; [left; reflexivity|]. split; [reflexivity|].
    apply Nat.ltb_lt. vm_compute. reflexivity.
Defined.

(** ** The shape of the result *)

Lemma rstrip_cons (c : ascii) (rest : string) :
  isspace c = false -> rstrip (String c rest) = String c (rstrip rest).
Proof.
  intros Hc. cbn [rstrip]. rewrite Hc. now destruct (rstrip rest).
Qed.

Lemma rstrip_last (s body : string) (c : ascii) :
  rstrip s = body ++ String c "" -> isspace c = false.
Proof.
  revert body. induction s as [|x s IH]; intros body; cbn [rstrip].
  - now destruct body.
  - destruct (rstrip s) as [|y r] eqn:Hr.
    + destruct (isspace x) eqn:Hx; [now destruct body|].
      destruct body as [|b body]; simpl; intros H.
      * now injection H as <-.
      * injection H as _ H. now destruct body.
    + destruct body as [|b body]; simpl; intros H; [discriminate|].
      injection H as _ H. exact (IH body H).
Qed.

(** X7.  A returned statement begins with [SELECT] and neither begins nor
    ends with a white-space character: the line break after the last
    clause is gone. *)
Theorem generate_sql_starts_and_ends (strptime_ok : string -> bool) (seed : nat)
    (query : Query) (sl : SemanticLayer) (out : string) :
  generate_sql strptime_ok seed query sl = Ok out ->
  (exists rest, out = "SELECT" ++ rest)
  /\ (forall body c, out = body ++ String c "" -> isspace c = false).
Proof.
  rewrite generate_sql_eq.
  destruct (first_missing_metric _ _); [discriminate|].
  destruct (dimensions_unreadable query sl); [discriminate|].
  destruct (from_block seed sl (required_tables query sl)) as [block|e]; [|discriminate].
  cbn [bind]. destruct (oversized_filter query); [discriminate|].
  intros H. injection H as <-.
  unfold strip, statement, assemble. split.
  - cbn [append lstrip]. change (isspace "S") with false. cbv iota.
    rewrite !rstrip_cons by reflexivity. eexists. reflexivity.
  - intros body c. apply rstrip_last.
Qed.

Lemma generate_sql_starts_and_ends_witness :
  (exists rest,
     "SELECT SUM(sale_price) AS total_revenue" ++ nl ++ "FROM order_items" = "SELECT" ++ rest)
  /\ (forall body c,
        "SELECT SUM(sale_price) AS total_revenue" ++ nl ++ "FROM order_items"
        = body ++ String c "" -> isspace c = false).
Proof.
  exact (generate_sql_starts_and_ends strptime_Ymd 0 query1 semantic1 _ eq_refl).
Defined.

(** ** When the FROM table does not depend on the set order *)

Lemma next_iter_singleton (seed : nat) (t : string) : next_iter seed [t] = Ok t.
Proof.
  unfold next_iter. cbn [List.length]. now rewrite Nat.mod_1_r.
Qed.

Lemma from_block_one_table (seed : nat) (sl : SemanticLayer) (t : string) :
  from_block seed sl [t] = Ok ("FROM " ++ t ++ nl).
Proof.
  rewrite from_block_single by (right; right; simpl; lia).
  now rewrite next_iter_singleton.
Qed.

(** X8.  When the requested metrics are declared, the dimension loop can
    run, the requested metrics and dimensions live in one table and no
    filter value is an [int] of more than 4300 digits, [generate_sql]
    returns the statement with [FROM] that table and no JOIN line,
    whatever joins the schema declares and whatever the iteration order of
    the set. *)
Theorem single_table_from (strptime_ok : string -> bool) (seed : nat)
    (query : Query) (sl : SemanticLayer) (t : string) :
  (forall n, In n (requested_metrics query) ->
     exists m, In m (metrics sl) /\ m_name m = n) ->
  (dimensions sl = None -> requested_dimensions query = []) ->
  required_tables query sl = [t] ->
  (forall f n, In f (requested_filters query) -> f_value f = VInt n ->
               int_digits n <= int_max_str_digits) ->
  generate_sql strptime_ok seed query sl =
  Ok (strip (statement strptime_ok query sl ("FROM " ++ t ++ nl))).
Proof.
  intros Hall Hdims Ht Hfit. rewrite generate_sql_eq.
  rewrite first_missing_metric_all
    by (intros k Hk; apply lookup_metric_declared; exact (Hall k Hk)).
  apply dimensions_unreadable_false_iff in Hdims.
  apply oversized_filter_false_iff in Hfit.
  now rewrite Hdims, Ht, from_block_one_table, Hfit.
Qed.

(** [semantic5] with the join of [semantic7] declared. *)
Lemma single_table_from_witness :
  generate_sql strptime_Ymd 5 query5 (mkSemanticLayer (metrics semantic5)
                                        (dimensions semantic5) (Some [orders_join]))
  = Ok ("SELECT COUNT(order_id) AS count_of_orders"
        ++ nl ++ "FROM orders"
        ++ nl ++ "WHERE orders.status = 'Complete' AND orders.gender = 'F'").
Proof.
  apply (single_table_from strptime_Ymd 5 query5
           (mkSemanticLayer (metrics semantic5) (dimensions semantic5) (Some [orders_join]))
           "orders").
  - intros n [<-|[]]. eexists. split; [left; reflexivity | reflexivity].
  - discriminate.
  - reflexivity.
  - intros f n [<-|[<-|[]]] H; discriminate H.
Defined.

(** ** One condition per filter *)

(** X9.  When the filter loop runs to its end, it has turned every filter
    into exactly one condition, in WHERE or in HAVING: none is lost and
    none is doubled. *)
Theorem filters_all_rendered (strptime_ok : string -> bool) (sl : SemanticLayer)
    (requested : list string) (fs : list Filter) (w h : list string) :
  add_filters strptime_ok sl requested fs ([], []) = Ok (w, h) ->
  List.length w + List.length h = List.length fs.
Proof.
  rewrite add_filters_eq. destruct (existsb _ fs); [discriminate|].
  cbn [app]. intros H. injection H as <- <-.
  unfold where_conditions, having_conditions. rewrite !length_map.
  induction fs as [|f fs IH]; simpl; [reflexivity|].
  destruct (is_metric_filter requested f); simpl; lia.
Qed.

Lemma filters_all_rendered_witness :
  List.length ["orders.status = 'Complete'"; "orders.gender = 'F'"]
  + List.length (@nil string) = 2.
Proof.
  exact (filters_all_rendered strptime_Ymd semantic5 ["count_of_orders"]
           (requested_filters query5) _ _ eq_refl).
Defined.

(** ** The order of the declarations in the schema *)

Lemma find_by_key_perm {A : Type} (key : A -> string) (n : string) (l l' : list A) :
  Permutation l l' ->
  NoDup (map key l) ->
  find (fun x => String.eqb (key x) n) l = find (fun x => String.eqb (key x) n) l'.
Proof.
  induction 1 as [|x l l' Hperm IH|x y l|l l' l'' H1 IH1 H2 IH2]; intros Hnd.
  - reflexivity.
  - simpl. destruct (String.eqb (key x) n); [reflexivity|].
    apply IH. now inversion Hnd.
  - simpl. destruct (String.eqb_spec (key y) n) as [Hy|_];
      destruct (String.eqb_spec (key x) n) as [Hx|_]; try reflexivity.
    exfalso. inversion Hnd as [|? ? Hnotin _]. apply Hnotin. left. congruence.
  - rewrite IH1 by exact Hnd. apply IH2.
    apply (Permutation_NoDup (Permutation_map key H1) Hnd).
Qed.

Lemma dimension_names_lookup (n : string) (ds : list Dimension) :
  str_in n (map d_name ds) =
  match lookup_dimension n ds with Some _ => true | None => false end.
Proof.
  unfold str_in, lookup_dimension. induction ds as [|d ds IH]; simpl; [reflexivity|].
  rewrite (String.eqb_sym n (d_name d)).
  destruct (String.eqb (d_name d) n); [reflexivity | exact IH].
Qed.

Lemma from_block_joins (seed : nat) (sl1 sl2 : SemanticLayer) (tables : table_set) :
  joins sl1 = joins sl2 -> from_block seed sl1 tables = from_block seed sl2 tables.
Proof.
  intros Hj. unfold from_block, add_from_clause. now rewrite Hj.
Qed.

(** The result only depends on the schema through the lookups. *)
Lemma generate_sql_ext (strptime_ok : string -> bool) (seed : nat) (query : Query)
    (sl1 sl2 : SemanticLayer) :
  (forall n, lookup_metric n (metrics sl1) = lookup_metric n (metrics sl2)) ->
  (forall n, lookup_dimension n (schema_dimensions sl1)
             = lookup_dimension n (schema_dimensions sl2)) ->
  (dimensions sl1 = None <-> dimensions sl2 = None) ->
  joins sl1 = joins sl2 ->
  generate_sql strptime_ok seed query sl1 = generate_sql strptime_ok seed query sl2.
Proof.
  intros Hm Hd Hnone Hj. rewrite !generate_sql_eq.
  assert (Hr : forall n, resolve_dimension (schema_dimensions sl1) n
                         = resolve_dimension (schema_dimensions sl2) n).
  { intros n. unfold resolve_dimension. now rewrite !Hd. }
  assert (Hfirst : first_missing_metric (metrics sl1) (requested_metrics query)
                   = first_missing_metric (metrics sl2) (requested_metrics query)).
  { unfold first_missing_metric. generalize (requested_metrics query) as l.
    induction l as [|n l IH]; simpl; [reflexivity | now rewrite Hm, IH]. }
  assert (Hitems : metric_items (metrics sl1) (requested_metrics query)
                   = metric_items (metrics sl2) (requested_metrics query)).
  { unfold metric_items. generalize (requested_metrics query) as l.
    induction l as [|n l IH]; simpl; [reflexivity | now rewrite Hm, IH]. }
  assert (Hmt : forall t, metric_tables (metrics sl1) (requested_metrics query) t
                          = metric_tables (metrics sl2) (requested_metrics query) t).
  { unfold metric_tables. generalize (requested_metrics query) as l.
    induction l as [|n l IH]; intros t; simpl; [reflexivity | now rewrite Hm, IH]. }
  assert (Hdi : dimension_items (schema_dimensions sl1) (requested_dimensions query)
                = dimension_items (schema_dimensions sl2) (requested_dimensions query)).
  { unfold dimension_items. generalize (requested_dimensions query) as l.
    induction l as [|n l IH]; simpl; [reflexivity | now rewrite Hr, IH]. }
  assert (Hgi : group_items (schema_dimensions sl1) (requested_dimensions query)
                = group_items (schema_dimensions sl2) (requested_dimensions query)).
  { unfold group_items. generalize (requested_dimensions query) as l.
    induction l as [|n l IH]; simpl; [reflexivity | now rewrite Hr, IH]. }
  assert (Hdt : forall t, dimension_tables (schema_dimensions sl1) (requested_dimensions query) t
                          = dimension_tables (schema_dimensions sl2) (requested_dimensions query) t).
  { unfold dimension_tables. generalize (requested_dimensions query) as l.
    induction l as [|n l IH]; intros t; simpl; [reflexivity | now rewrite Hr, IH]. }
  assert (Hwt : forall f, where_text strptime_ok sl1 f = where_text strptime_ok sl2 f).
  { intros f. unfold where_text, is_date_filter, dimension_names.
    fold (schema_dimensions sl1). fold (schema_dimensions sl2).
    now rewrite !get_qualified_field_eq, !dimension_names_lookup, !Hd, !Hm. }
  assert (Hw : forall fs, where_conditions strptime_ok sl1 (requested_metrics query) fs
                          = where_conditions strptime_ok sl2 (requested_metrics query) fs).
  { intros fs. unfold where_conditions. apply map_ext. exact Hwt. }
  assert (Hu : dimensions_unreadable query sl1 = dimensions_unreadable query sl2).
  { unfold dimensions_unreadable. destruct (q_dimensions query) as [[|n rest]|]; try reflexivity.
    destruct (dimensions sl1), (dimensions sl2); try reflexivity.
    - destruct Hnone as [_ H]. discriminate (H eq_refl).
    - destruct Hnone as [H _]. discriminate (H eq_refl). }
  unfold statement, select_list, required_tables.
  rewrite Hfirst, Hu, Hitems, Hdi, Hgi, Hw, Hmt, Hdt.
  now rewrite (from_block_joins seed sl1 sl2 _ Hj).
Qed.

(** X10.  In a schema whose metric names are distinct and whose dimension
    names are distinct, the order of the declarations does not matter:
    [generate_sql] gives the same result for any reordering of the two
    lists. *)
Theorem schema_order_irrelevant (strptime_ok : string -> bool) (seed : nat)
    (query : Query) (sl1 sl2 : SemanticLayer) :
  Permutation (metrics sl1) (metrics sl2) ->
  NoDup (map m_name (metrics sl1)) ->
  same_dimensions (dimensions sl1) (dimensions sl2) ->
  joins sl1 = joins sl2 ->
  generate_sql strptime_ok seed query sl1 = generate_sql strptime_ok seed query sl2.
Proof.
  intros Hpm Hnm Hsame Hj. apply generate_sql_ext; try assumption.
  - intros n. unfold lookup_metric. now apply find_by_key_perm.
  - intros n. unfold lookup_dimension, schema_dimensions, same_dimensions in *.
    destruct (dimensions sl1), (dimensions sl2); try tauto.
    destruct Hsame as [Hp Hn]. now apply find_by_key_perm.
  - unfold same_dimensions in Hsame.
    destruct (dimensions sl1), (dimensions sl2); try tauto; split; discriminate.
Qed.

Lemma schema_order_irrelevant_witness :
  generate_sql strptime_Ymd 0 query7 semantic7
  = generate_sql strptime_Ymd 0 query7 semantic7_reordered.
Proof.
  apply (schema_order_irrelevant strptime_Ymd 0 query7 semantic7 semantic7_reordered).
  - apply Permutation_refl.
  - repeat constructor. intros [].
  - split.
    + apply (perm_trans (l' := [mkDimension "order_id" "order_id" "order_items";
                                mkDimension "status" "status" "orders";
                                mkDimension "gender" "gender" "orders"])).
      * apply perm_skip. apply perm_swap.
      * apply perm_swap.
    + repeat constructor; simpl; intuition discriminate.
  - reflexivity.
Defined.

(** ** One join between the two required tables *)

Lemma next_iter_pair (seed : nat) (a b : string) :
  next_iter seed [a; b] = Ok a \/ next_iter seed [a; b] = Ok b.
Proof.
  unfold next_iter. cbn [List.length].
  pose proof (Nat.mod_upper_bound seed 2) as Hlt.
  destruct (seed mod 2) as [|[|k]]; [left | right | lia]; reflexivity.
Qed.

(** X11.  With a single declared join whose two tables are the required
    ones, whichever table the set yields first, the FROM table and the one
    JOIN line name the two tables of the join, with the declared condition:
    the two possible statements differ in the order of the tables only. *)
Theorem single_join_both_anchors (seed : nat) (sl : SemanticLayer) (j : Join)
    (tables : table_set) (sql : string) :
  joins sl = Some [j] ->
  j_one j <> j_many j ->
  tables = [j_one j; j_many j] \/ tables = [j_many j; j_one j] ->
  add_from_clause seed sl tables sql
    = Ok (sql ++ "FROM " ++ j_one j ++ nl
              ++ "JOIN " ++ j_many j ++ " ON " ++ j_join j ++ nl)
  \/ add_from_clause seed sl tables sql
    = Ok (sql ++ "FROM " ++ j_many j ++ nl
              ++ "JOIN " ++ j_one j ++ " ON " ++ j_join j ++ nl).
Proof.
  intros Hj Hne Htables. rewrite add_from_clause_app.
  assert (Hlen : 1 < List.length tables) by (destruct Htables as [->| ->]; simpl; lia).
  rewrite (from_block_joined seed sl tables j [] Hj Hlen).
  assert (Hinter : set_inter tables (join_tables [j]) = tables).
  { unfold set_inter. destruct Htables as [->| ->]; cbn [filter];
      rewrite !str_in_join_tables; cbn [map str_in existsb];
      rewrite !String.eqb_refl, ?orb_true_r; reflexivity. }
  rewrite Hinter.
  assert (Hone : str_in (j_one j) tables = true).
  { apply str_in_In. destruct Htables as [->| ->]; simpl; auto. }
  assert (Hlines : forall anchor,
    join_lines anchor tables [j] =
    if String.eqb (j_one j) anchor
    then "JOIN " ++ j_many j ++ " ON " ++ j_join j ++ nl
    else "JOIN " ++ j_one j ++ " ON " ++ j_join j ++ nl).
  { intros anchor. cbn [join_lines fold_right]. unfold join_line. rewrite Hone.
    cbn [orb]. rewrite string_app_nil_r. reflexivity. }
  assert (Hpick : next_iter seed tables = Ok (j_one j) \/ next_iter seed tables = Ok (j_many j)).
  { destruct Htables as [->| ->];
      destruct (next_iter_pair seed (j_one j) (j_many j)) as [H|H];
      destruct (next_iter_pair seed (j_many j) (j_one j)) as [H'|H']; auto. }
  destruct Hpick as [-> | ->]; cbn [bind]; rewrite Hlines.
  - left. now rewrite String.eqb_refl.
  - right. apply String.eqb_neq in Hne. now rewrite Hne.
Qed.

Lemma single_join_both_anchors_witness :
  add_from_clause 1 semantic7 ["order_items"; "orders"] "SELECT 1 "
    = Ok ("SELECT 1 " ++ "FROM " ++ "orders" ++ nl
          ++ "JOIN " ++ "order_items" ++ " ON " ++ "order_items.order_id = orders.order_id" ++ nl)
  \/ add_from_clause 1 semantic7 ["order_items"; "orders"] "SELECT 1 "
    = Ok ("SELECT 1 " ++ "FROM " ++ "order_items" ++ nl
          ++ "JOIN " ++ "orders" ++ " ON " ++ "order_items.order_id = orders.order_id" ++ nl).
Proof.
  apply (single_join_both_anchors 1 semantic7 orders_join ["order_items"; "orders"] "SELECT 1 ").
  - reflexivity.
  - discriminate.
  - right. reflexivity.
Defined.

(** ** The aliases of the SELECT list *)

Lemma lookup_metric_name (n : string) (ms : list Metric) (m : Metric) :
  lookup_metric n ms = Some m -> m_name m = n.
Proof.
  intros H. apply find_some in H. destruct H as [_ H]. now apply String.eqb_eq.
Qed.

(** X12.  Every item of the SELECT list is an expression followed by [AS]
    and the name as the query wrote it: the columns of the result carry the
    requested names, first those of the dimensions that resolve and then
    those of the metrics. *)
Theorem select_aliases_are_requested_names (strptime_ok : string -> bool) (seed : nat)
    (query : Query) (sl : SemanticLayer) (out : string) :
  generate_sql strptime_ok seed query sl = Ok out ->
  exists select rest,
    out = strip ("SELECT " ++ join_with ", " select ++ nl ++ rest)
    /\ Forall2 (fun n item => exists expr, item = expr ++ " AS " ++ n)
         (resolved_names (schema_dimensions sl) (requested_dimensions query)
          ++ requested_metrics query)%list
         select.
Proof.
  rewrite generate_sql_eq.
  destruct (first_missing_metric _ _) eqn:Hmiss; [discriminate|].
  destruct (dimensions_unreadable query sl); [discriminate|].
  destruct (from_block seed sl (required_tables query sl)) as [block|e]; [|discriminate].
  cbn [bind]. destruct (oversized_filter query); [discriminate|].
  intros H. injection H as <-.
  exists (select_list query sl). eexists. split.
  - unfold statement, assemble. reflexivity.
  - unfold select_list. apply Forall2_app.
    + eapply Forall2_impl; [|apply dimension_items_resolved].
      intros n item [d [_ ->]]. exists (group_expr n d). apply select_expr_group_expr.
    + eapply Forall2_impl; [|apply (metric_items_resolved _ _ Hmiss)].
      intros n item [m [Hm ->]]. exists (m_sql m).
      now rewrite (lookup_metric_name n _ m Hm).
Qed.

Lemma select_aliases_are_requested_names_witness :
  exists select rest,
    "SELECT DATE_TRUNC(orders.created_at, WEEK) AS ordered_date__week, SUM(sale_price) AS total_revenue"
    ++ nl ++ "FROM order_items"
    ++ nl ++ "JOIN orders ON order_items.order_id = orders.order_id"
    ++ nl ++ "WHERE DATE(orders.created_at) >= DATE('2024-01-01')"
    ++ nl ++ "GROUP BY DATE_TRUNC(orders.created_at, WEEK)"
    = strip ("SELECT " ++ join_with ", " select ++ nl ++ rest)
    /\ Forall2 (fun n item => exists expr, item = expr ++ " AS " ++ n)
         ["ordered_date__week"; "total_revenue"] select.
Proof.
  exact (select_aliases_are_requested_names strptime_Ymd 0 query8 semantic8 _ eq_refl).
Defined.

(** ** A schema without joins *)

(** X13.  When the schema declares no join (no list, or an empty one), a
    returned statement has a single [FROM] line naming one of the required
    tables and no JOIN line, however many tables are required. *)
Theorem no_joins_single_from (strptime_ok : string -> bool) (seed : nat)
    (query : Query) (sl : SemanticLayer) (out : string) :
  joins sl = None \/ joins sl = Some [] ->
  generate_sql strptime_ok seed query sl = Ok out ->
  exists t,
    In t (required_tables query sl)
    /\ out = strip (statement strptime_ok query sl ("FROM " ++ t ++ nl)).
Proof.
  intros Hj. rewrite generate_sql_eq.
  destruct (first_missing_metric _ _); [discriminate|].
  destruct (dimensions_unreadable query sl); [discriminate|].
  rewrite from_block_single by tauto.
  destruct (next_iter seed (required_tables query sl)) as [t|e] eqn:Ht; [|discriminate].
  cbn [bind]. destruct (oversized_filter query); [discriminate|].
  intros H. injection H as <-.
  exists t. split; [exact (next_iter_ok _ _ _ Ht) | reflexivity].
Qed.

Lemma no_joins_single_from_witness :
  exists t,
    In t ["order_items"; "orders"]
    /\ "SELECT order_items.order_id AS order_id, orders.gender AS gender, orders.status AS status, SUM(sale_price) AS total_revenue"
       ++ nl ++ "FROM orders"
       ++ nl ++ "GROUP BY order_items.order_id, orders.gender, orders.status"
       ++ nl ++ "HAVING total_revenue > 1000"
       = strip (statement strptime_Ymd query7 semantic7_no_joins ("FROM " ++ t ++ nl)).
Proof.
  exact (no_joins_single_from strptime_Ymd 1 query7 semantic7_no_joins _
           (or_introl eq_refl) eq_refl).
Defined.

(** ** [format_value] *)

Lemma split_from_word (s : string) :
  forall word, word <> "" ->
    exists tail, split_from word s = (word ++ first_word s) :: tail.
Proof.
  induction s as [|c rest IH]; intros word Hword; cbn [split_from first_word].
  - rewrite string_app_nil_r. destruct word; [contradiction | now exists []].
  - destruct (isspace c).
    + rewrite string_app_nil_r. destruct word; [contradiction | eauto].
    + destruct (IH (word ++ String c "")) as [tail Htail].
      { now destruct word. }
      exists tail. rewrite Htail. now rewrite string_app_assoc.
Qed.

Lemma py_split_lstrip (s : string) : py_split s = py_split (lstrip s).
Proof.
  unfold py_split. induction s as [|c rest IH]; cbn [lstrip split_from]; [reflexivity|].
  destruct (isspace c) eqn:Hc; [exact IH|].
  cbn [split_from]. now rewrite Hc.
Qed.

Lemma py_split_first (s : string) :
  match lstrip s with
  | EmptyString => py_split s = []
  | String c rest => exists tail, py_split s = first_word (String c rest) :: tail
  end.
Proof.
  rewrite py_split_lstrip.
  destruct (lstrip s) as [|c rest] eqn:Hs.
  - reflexivity.
  - assert (Hc : isspace c = false).
    { clear -Hs. induction s as [|x s IH]; cbn [lstrip] in Hs; [discriminate|].
      destruct (isspace x) eqn:Hx; [exact (IH Hs)|]. now injection Hs as <- _. }
    unfold py_split. cbn [split_from first_word]. rewrite Hc.
    destruct (split_from_word rest (String c "")) as [tail Htail]; [discriminate|].
    exists tail. exact Htail.
Qed.

Lemma contains_lstrip (s : string) :
  contains "+00:00" s = true -> lstrip s <> "".
Proof.
  induction s as [|c rest IH]; cbn [contains lstrip]; [discriminate|].
  intros H. apply orb_true_iff in H. destruct H as [H|H].
  - cbn [prefix] in H. destruct (ascii_dec "+" c) as [<-|]; [|discriminate].
    discriminate.
  - destruct (isspace c); [exact (IH H) | discriminate].
Qed.

Lemma first_word_no_space (s body tail : string) (c : ascii) :
  first_word s = body ++ String c tail -> isspace c = false.
Proof.
  revert body. induction s as [|x s IH]; intros body; cbn [first_word].
  - now destruct body.
  - destruct (isspace x) eqn:Hx; [now destruct body|].
    destruct body as [|b body]; simpl; intros H.
    + now injection H as <- _.
    + injection H as _ H. exact (IH body H).
Qed.

Lemma first_word_prefix (s : string) :
  exists rest, s = first_word s ++ rest
               /\ match rest with EmptyString => True | String c _ => isspace c = true end.
Proof.
  induction s as [|x s [rest [Hs Hrest]]]; cbn [first_word].
  - now exists "".
  - destruct (isspace x) eqn:Hx.
    + exists (String x s). now split.
    + exists rest. split; [simpl; now rewrite <- Hs | exact Hrest].
Qed.

(** X14.  [format_value] never raises: a string that holds [+00:00] has a
    first word, so [value.split()[0]] is in range.  On such a string the
    result is the text between the leading white space and the next white
    space, which is not empty and has no white space in it; a string
    without [+00:00], an [int], a [bool] and [None] come back as they
    are. *)
Theorem format_value_total (format_float : string -> string) (v : value) :
  (exists r, format_value format_float v = Ok r)
  /\ (forall s, v = VStr s -> contains "+00:00" s = true ->
        exists word rest,
          format_value format_float v = Ok (VStr word)
          /\ lstrip s = word ++ rest
          /\ word <> ""
          /\ (forall body c tail, word = body ++ String c tail -> isspace c = false)
          /\ match rest with EmptyString => True | String c _ => isspace c = true end)
  /\ (forall s, v = VStr s -> contains "+00:00" s = false ->
        format_value format_float v = Ok v)
  /\ (is_str v = false -> (forall r, v <> VFloat r) -> format_value format_float v = Ok v).
Proof.
  assert (Hstr : forall s, contains "+00:00" s = true ->
            exists word rest,
              format_value format_float (VStr s) = Ok (VStr word)
              /\ lstrip s = word ++ rest
              /\ word <> ""
              /\ (forall body c tail, word = body ++ String c tail -> isspace c = false)
              /\ match rest with EmptyString => True | String c _ => isspace c = true end).
  { intros s Hs. pose proof (py_split_first s) as Hsplit.
    pose proof (contains_lstrip s Hs) as Hne.
    destruct (lstrip s) as [|c rest0] eqn:Hl; [contradiction|].
    destruct Hsplit as [tail Hsplit].
    destruct (first_word_prefix (String c rest0)) as [rest [Hpre Hrest]].
    exists (first_word (String c rest0)), rest.
    cbn [format_value]. rewrite Hs, Hsplit.
    split; [reflexivity|]. split; [exact Hpre|]. split; [|split].
    - cbn [first_word]. destruct (isspace c) eqn:Hc; [|discriminate].
      exfalso. clear -Hl Hc. induction s as [|x s IH]; cbn [lstrip] in Hl; [discriminate|].
      destruct (isspace x) eqn:Hx; [exact (IH Hl)|]. injection Hl as -> _. congruence.
    - intros body c' tail'. apply first_word_no_space.
    - exact Hrest. }
  split; [|split; [|split]].
  - destruct v as [s| | | |]; try (eexists; reflexivity).
    destruct (contains "+00:00" s) eqn:Hs.
    + destruct (Hstr s Hs) as [word [_ [H _]]]. now exists (VStr word).
    + cbn [format_value]. rewrite Hs. eexists. reflexivity.
  - intros s -> Hs. exact (Hstr s Hs).
  - intros s -> Hs. cbn [format_value]. now rewrite Hs.
  - intros Hnot Hfloat. destruct v as [s|n|r|b|]; try reflexivity.
    + discriminate.
    + exfalso. now apply (Hfloat r).
Qed.

Lemma format_value_total_witness :
  exists word rest,
    format_value (fun r => r) (VStr "2024-01-15 08:30:00+00:00") = Ok (VStr word)
    /\ lstrip "2024-01-15 08:30:00+00:00" = word ++ rest
    /\ word <> ""
    /\ (forall body c tail, word = body ++ String c tail -> isspace c = false)
    /\ match rest with EmptyString => True | String c _ => isspace c = true end.
Proof.
  exact (proj1 (proj2 (format_value_total (fun r => r) (VStr "2024-01-15 08:30:00+00:00")))
           _ eq_refl eq_refl).
Defined.
